(** * Email spam classifier: the [classify_spam] workflow of [main.py]

    A shallow embedding of [classify_spam_workflow] and of the Python
    values it manipulates, followed by the properties of the workflow.

    The two external collaborators (the Gmail MCP server and the LLM) are
    functions on an abstract [World]; every call the workflow makes and every
    record it hands to the logger is appended to a chronological [trace]. *)

From Stdlib Require Import ZArith List String Ascii Bool Lia Permutation.
From Stdlib Require Import SpecFloat.
Import ListNotations.

Local Open Scope string_scope.
Local Open Scope list_scope.
Local Open Scope Z_scope.

Set Implicit Arguments.
#[local] Set Warnings "-register-all".

(** ** Python floats (IEEE 754 binary64) *)

Module PyFloat.

Definition prec : Z := 53.
Definition emax : Z := 1024.

Definition float := spec_float.

(** An integer seen as an exact (not yet rounded) binary number. *)
Definition exact (z : Z) : float :=
  match z with
  | Z0 => S754_zero false
  | Zpos p => S754_finite false p 0
  | Zneg p => S754_finite true p 0
  end.

(** [float(z)]: the nearest double. *)
Definition of_int (z : Z) : float := binary_normalize prec emax z 0 false.

(** The correctly rounded quotient of two integers; this is both Python's
    [int / int] (for a nonzero divisor) and the value of a decimal literal
    such as [0.1] (the quotient [1 / 10]). *)
Definition quotient (a b : Z) : float := SFdiv prec emax (exact a) (exact b).

(** The literal [k / 10^n], e.g. [decimal 1 1] for [0.1]. *)
Definition decimal (k : Z) (n : nat) : float := quotient k (10 ^ Z.of_nat n).

Definition mul (x y : float) : float := SFmul prec emax x y.

Definition is_zero (x : float) : bool :=
  match x with S754_zero _ => true | _ => false end.

Definition is_infinite (x : float) : bool :=
  match x with S754_infinity _ => true | _ => false end.

(** The integer nearest to [n / d] for [d > 0], ties going to the even one. *)
Definition round_half_even_div (n d : Z) : Z :=
  let q := n / d in
  let r := n mod d in
  match 2 * r ?= d with
  | Lt => q
  | Gt => q + 1
  | Eq => if Z.even q then q else q + 1
  end.

(** [round(x, ndigits)] for [ndigits >= 0]: the exact value of [x] is
    rounded half-even to [ndigits] decimals and the decimal obtained is
    converted back to the nearest double; NaN and the infinities round to
    themselves, and a zero result keeps the sign of [x]. *)
Definition round (x : float) (ndigits : nat) : float :=
  match x with
  | S754_finite s m e =>
      let p := 10 ^ Z.of_nat ndigits in
      let k := if 0 <=? e
               then Zpos m * 2 ^ e * p
               else round_half_even_div (Zpos m * p) (2 ^ (- e)) in
      match k with
      | Zpos k' => SFdiv prec emax (S754_finite s k' 0) (exact p)
      | _ => S754_zero s
      end
  | _ => x
  end.

End PyFloat.

(** ** Python values and exceptions *)

(** The JSON-like values exchanged with the collaborators and returned by
    the workflow.  A dict keeps its keys in insertion order. *)
Inductive value : Type :=
| VNone
| VBool (b : bool)
| VInt (z : Z)
| VFloat (f : PyFloat.float)
| VStr (s : string)
| VList (l : list value)
| VDict (d : list (string * value)).

(** Exceptions deriving from [Exception].  The message text of the
    exceptions raised by the interpreter itself is not modelled. *)
Inductive exn : Type :=
| ValueError (msg : string)
| TypeError
| AttributeError
| KeyError (key : string)
| ZeroDivisionError
| OverflowError
| ValidationError
| CollaboratorError (payload : string).

(** The result of an expression that may raise. *)
Definition result (A : Type) : Type := (exn + A)%type.

Module Py.

(** [bool(v)], the test made by [if v] and [if not v]. *)
Definition truthy (v : value) : bool :=
  match v with
  | VNone => false
  | VBool b => b
  | VInt z => negb (z =? 0)
  | VFloat f => negb (PyFloat.is_zero f)
  | VStr s => negb (String.eqb s "")
  | VList l => match l with [] => false | _ => true end
  | VDict d => match d with [] => false | _ => true end
  end.

Fixpoint lookup (d : list (string * value)) (key : string) : option value :=
  match d with
  | [] => None
  | (k, v) :: d' => if String.eqb k key then Some v else lookup d' key
  end.

(** [v.get(key, default)]: only a dict has the method. *)
Definition get (v : value) (key : string) (default : value) : result value :=
  match v with
  | VDict d =>
      match lookup d key with
      | Some x => inr x
      | None => inr default
      end
  | _ => inl AttributeError
  end.

(** [v[key]] for a string key. *)
Definition index (v : value) (key : string) : result value :=
  match v with
  | VDict d =>
      match lookup d key with
      | Some x => inr x
      | None => inl (KeyError key)
      end
  | _ => inl TypeError
  end.

(** [len(v)]. *)
Definition len (v : value) : result nat :=
  match v with
  | VStr s => inr (String.length s)
  | VList l => inr (List.length l)
  | VDict d => inr (List.length d)
  | _ => inl TypeError
  end.

Fixpoint chars (s : string) : list value :=
  match s with
  | EmptyString => []
  | String c s' => VStr (String c EmptyString) :: chars s'
  end.

(** The items produced by iterating over [v]: the elements of a list,
    the characters of a string, the keys of a dict. *)
Definition iter (v : value) : result (list value) :=
  match v with
  | VList l => inr l
  | VStr s => inr (chars s)
  | VDict d => inr (map (fun kv => VStr (fst kv)) d)
  | _ => inl TypeError
  end.

(** [a / b] on integers: the correctly rounded quotient.  The quotient
    is too large for a float exactly when its magnitude reaches
    [2^1024 - 2^970], the midpoint between the largest double and
    [2^1024]. *)
Definition truediv (a b : Z) : result PyFloat.float :=
  if b =? 0 then inl ZeroDivisionError
  else if (2 ^ 1024 - 2 ^ 970) * Z.abs b <=? Z.abs a then inl OverflowError
  else inr (PyFloat.quotient a b).

(** [enumerate(l, start)]. *)
Fixpoint enumerate (A : Type) (l : list A) (start : nat) : list (nat * A) :=
  match l with
  | [] => []
  | x :: l' => (start, x) :: enumerate l' (S start)
  end.

End Py.

(** ** The data classes of [main.py] *)

Module Models.

Record SpamType : Type := mkSpamType {
category : string
}.

Record EmailClassification : Type := mkEmailClassification {
is_spam : bool;
confidence : PyFloat.float;
spam_type : SpamType;
reasoning : string;
recommended_action : string
}.

Record EmailInfo : Type := mkEmailInfo {
email_id : string;
subject : string;
from_address : string;
snippet : string;
classification : option EmailClassification
}.

End Models.

Export Models.

(** [EmailInfo(email_id=..., subject=..., from_address=..., snippet=...)]:
    the four fields are declared [str], and the model validation rejects
    any other value; [classification] takes its default [None]. *)
Definition EmailInfo_init (email_id subject from_address snippet : value)
  : result EmailInfo :=
  match email_id, subject, from_address, snippet with
  | VStr i, VStr s, VStr f, VStr p => inr (mkEmailInfo i s f p None)
  | _, _, _, _ => inl ValidationError
  end.

(** A model class handed over as an output schema: its fields and their
    declared types and bounds. *)
Inductive field_type : Type :=
| TBool
| TStr
| TFloat (ge le : PyFloat.float)
| TModel (name : string) (fields : list (string * field_type)).

Definition SpamType_schema : field_type :=
  TModel "SpamType" [("category", TStr)].

Definition EmailClassification_schema : field_type :=
  TModel "EmailClassification"
    [("is_spam", TBool);
     ("confidence", TFloat (PyFloat.of_int 0) (PyFloat.of_int 1));
     ("spam_type", SpamType_schema);
     ("reasoning", TStr);
     ("recommended_action", TStr)].

(** The keyword arguments of [app.llm.run]. *)
Record LlmRequest : Type := mkLlmRequest {
  messages : value;
  output_schema : field_type;
  temperature : PyFloat.float
}.

(** ** The classification prompt *)

Definition LF : string := String (ascii_of_nat 10) EmptyString.

(** The f-string of lines 123-139: it opens and closes with a line feed. *)
Definition classification_prompt (from_address subject snippet : string) : string :=
  (LF ++ "Analyze this email and classify it as spam or not spam." ++ LF
  ++ LF
  ++ "**Email Details:**" ++ LF
  ++ "- From: " ++ from_address ++ LF
  ++ "- Subject: " ++ subject ++ LF
  ++ "- Preview: " ++ snippet ++ LF
  ++ LF
  ++ "Consider the following factors:" ++ LF
  ++ "1. Sender reputation and authenticity" ++ LF
  ++ "2. Subject line characteristics (urgency, sensationalism, suspicious patterns)" ++ LF
  ++ "3. Content quality and professionalism" ++ LF
  ++ "4. Presence of phishing indicators" ++ LF
  ++ "5. Marketing/promotional characteristics" ++ LF
  ++ LF
  ++ "Provide a structured classification with confidence score, spam type, reasoning, and recommended action." ++ LF)%string.

(** ** Events: external calls and log records *)

Inductive level : Type := INFO | ERROR.

(** A piece of an f-string: literal text or an interpolated value with its
    format specification (the conversion to text is left to the logger). *)
Inductive fragment : Type :=
| Lit (s : string)
| Interp (v : value) (format_spec : string)
| InterpExn (e : exn).

Inductive event : Type :=
| ToolCall (name : string) (args : value) (res : result value)
| LlmRun (req : LlmRequest) (res : result (option EmailClassification))
| Log (lvl : level) (msg : list fragment).

(** ** The workflow *)

Section Workflow.

(** The state of everything outside the process: mailbox, model, network. *)
Variable World : Type.

(** [gmail.call_tool(name, args)] *)
Record McpServer : Type := mkMcpServer {
  call_tool : string -> value -> World -> result value * World
}.

(** [app.llm.run(messages=..., output_schema=..., temperature=...)];
    nothing forces the object returned to be a classification, so [None]
    stands for a result without the attributes of one. *)
Record Llm : Type := mkLlm {
  run : LlmRequest -> World -> result (option EmailClassification) * World
}.

Record MCPApp : Type := mkMCPApp {
  mcp_servers : list (string * McpServer);
  llm : Llm
}.

Variable app : MCPApp.

Fixpoint servers_get (l : list (string * McpServer)) (key : string)
  : option McpServer :=
  match l with
  | [] => None
  | (k, s) :: l' => if String.eqb k key then Some s else servers_get l' key
  end.

(** The world, the events so far, and the three locals of the loop. *)
Record St : Type := mkSt {
  world : World;
  trace : list event;
  emails : list EmailInfo;
  spam_count : Z;
  not_spam_count : Z
}.

Definition initial (w : World) : St := mkSt w [] [] 0 0.

(** Computations that change the state and may raise; the state reached
    when an exception is raised is kept. *)
Definition M (A : Type) : Type := St -> result A * St.

Definition ret (A : Type) (a : A) : M A := fun st => (inr a, st).

Definition raise (A : Type) (e : exn) : M A := fun st => (inl e, st).

Definition bind (A B : Type) (m : M A) (k : A -> M B) : M B :=
  fun st =>
    match m st with
    | (inl e, st') => (inl e, st')
    | (inr a, st') => k a st'
    end.

Definition lift (A : Type) (r : result A) : M A := fun st => (r, st).

(** [try: body except Exception as e: handler e] *)
Definition try_except (A : Type) (body : M A) (handler : exn -> M A) : M A :=
  fun st =>
    match body st with
    | (inl e, st') => handler e st'
    | (inr a, st') => (inr a, st')
    end.

Notation "x <- m ;; k" := (bind m (fun x => k))
  (at level 61, m at next level, right associativity).
Notation "m ;;; k" := (bind m (fun _ => k))
  (at level 61, right associativity).

Definition emit (ev : event) : M unit :=
  fun st => (inr tt, mkSt (world st) (trace st ++ [ev]) (emails st)
                          (spam_count st) (not_spam_count st)).

Definition logger_info (msg : list fragment) : M unit := emit (Log INFO msg).
Definition logger_error (msg : list fragment) : M unit := emit (Log ERROR msg).

Definition gmail_call_tool (gmail : McpServer) (name : string) (args : value)
  : M value :=
  fun st =>
    let '(r, w) := call_tool gmail name args (world st) in
    (r, mkSt w (trace st ++ [ToolCall name args r]) (emails st)
             (spam_count st) (not_spam_count st)).

Definition llm_run (req : LlmRequest) : M (option EmailClassification) :=
  fun st =>
    let '(r, w) := run (llm app) req (world st) in
    (r, mkSt w (trace st ++ [LlmRun req r]) (emails st)
             (spam_count st) (not_spam_count st)).

(** [classification.is_spam] and the like: [None] has no such attribute. *)
Definition attributes (c : option EmailClassification) : M EmailClassification :=
  match c with
  | Some c' => ret c'
  | None => raise _ AttributeError
  end.

Definition incr_spam_count : M unit :=
  fun st => (inr tt, mkSt (world st) (trace st) (emails st)
                          (spam_count st + 1) (not_spam_count st)).

Definition incr_not_spam_count : M unit :=
  fun st => (inr tt, mkSt (world st) (trace st) (emails st)
                          (spam_count st) (not_spam_count st + 1)).

Definition emails_append (email_info : EmailInfo) : M unit :=
  fun st => (inr tt, mkSt (world st) (trace st) (emails st ++ [email_info])
                          (spam_count st) (not_spam_count st)).

(** ['SPAM' if b else 'NOT SPAM'] *)
Definition verdict (b : bool) : string := if b then "SPAM" else "NOT SPAM".

(** Lines 69-89.  [inl] is the dictionary returned from inside the [try],
    [inr] the non-empty [messages] the loop goes on with. *)
Definition list_emails (gmail : McpServer) (max_emails : Z) (label : string)
  : M (value + value) :=
  try_except
    (list_result <- gmail_call_tool gmail "gmail_list_messages"
                      (VDict [("max_results", VInt max_emails);
                              ("label_ids", VList [VStr label])]) ;;
     messages <- lift (Py.get list_result "messages" (VList [])) ;;
     if negb (Py.truthy messages) then
       logger_info [Lit "No emails found to classify"] ;;;
       ret (inl (VDict [("total_processed", VInt 0);
                        ("spam_count", VInt 0);
                        ("not_spam_count", VInt 0);
                        ("emails", VList [])]))
     else
       n <- lift (Py.len messages) ;;
       logger_info [Lit "Found "; Interp (VInt (Z.of_nat n)) "";
                    Lit " emails to classify"] ;;;
       ret (inr messages))
    (fun e =>
       logger_error [Lit "Error listing emails: "; InterpExn e] ;;;
       raise _ e).

(** Lines 103-167: the [try] of one iteration and its handler. *)
Definition classify_email (gmail : McpServer) (email_id : value) : M unit :=
  try_except
    (email_result <- gmail_call_tool gmail "gmail_get_message"
                       (VDict [("message_id", email_id)]) ;;
     subject <- lift (Py.get email_result "subject" (VStr "(no subject)")) ;;
     from_address <- lift (Py.get email_result "from" (VStr "unknown")) ;;
     snippet <- lift (Py.get email_result "snippet" (VStr "")) ;;
     email_info <- lift (EmailInfo_init email_id subject from_address snippet) ;;
     (* from here on the three locals are the strings held by [email_info] *)
     let classification_prompt :=
       classification_prompt (Models.from_address email_info)
                             (Models.subject email_info)
                             (Models.snippet email_info) in
     logger_info [Lit "Classifying email: ";
                  Interp (VStr (substring 0 50 (Models.subject email_info))) "";
                  Lit "..."] ;;;
     classification <- llm_run
       (mkLlmRequest
          (VList [VDict [("role", VStr "user");
                         ("content", VStr classification_prompt)]])
          EmailClassification_schema
          (PyFloat.decimal 1 1)) ;;
     let email_info :=
       mkEmailInfo (Models.email_id email_info) (Models.subject email_info)
                   (Models.from_address email_info)
                   (Models.snippet email_info) classification in
     c <- attributes classification ;;
     (if is_spam c then incr_spam_count else incr_not_spam_count) ;;;
     emails_append email_info ;;;
     logger_info [Lit "Email classified: "; Lit (verdict (is_spam c)); Lit " ";
                  Lit "(confidence: "; Interp (VFloat (confidence c)) ".2f";
                  Lit ")"])
    (fun e =>
       logger_error [Lit "Error processing email "; Interp email_id "";
                     Lit ": "; InterpExn e]).

(** Lines 97-167: the body of the loop. *)
Definition process_message (gmail : McpServer) (messages : value)
           (idx : nat) (message : value) : M unit :=
  email_id <- lift (Py.get message "id" VNone) ;;
  if negb (Py.truthy email_id) then ret tt
  else
    n <- lift (Py.len messages) ;;
    logger_info [Lit "Processing email "; Interp (VInt (Z.of_nat idx)) "";
                 Lit "/"; Interp (VInt (Z.of_nat n)) ""; Lit ": ";
                 Interp email_id ""] ;;;
    classify_email gmail email_id.

Fixpoint for_each (A : Type) (items : list A) (body : A -> M unit) : M unit :=
  match items with
  | [] => ret tt
  | x :: rest => body x ;;; for_each rest body
  end.

(** [round((spam_count / len(emails)) * 100, 1) if emails else 0] *)
Definition spam_percentage (spam_count : Z) (emails : list EmailInfo)
  : result value :=
  match emails with
  | [] => inr (VInt 0)
  | _ :: _ =>
      match Py.truediv spam_count (Z.of_nat (List.length emails)) with
      | inl e => inl e
      | inr q =>
          inr (VFloat (PyFloat.round (PyFloat.mul q (PyFloat.of_int 100)) 1))
      end
  end.

(** Lines 178-201: the projection of one record in the summary. *)
Definition email_projection (email : EmailInfo) : value :=
  VDict
    [("email_id", VStr (email_id email));
     ("subject", VStr (subject email));
     ("from", VStr (from_address email));
     ("is_spam",
       match classification email with
       | Some c => VBool (is_spam c)
       | None => VNone
       end);
     ("confidence",
       match classification email with
       | Some c => VFloat (PyFloat.round (confidence c) 2)
       | None => VNone
       end);
     ("spam_type",
       match classification email with
       | Some c => VStr (category (spam_type c))
       | None => VNone
       end);
     ("reasoning",
       match classification email with
       | Some c => VStr (reasoning c)
       | None => VNone
       end);
     ("recommended_action",
       match classification email with
       | Some c => VStr (recommended_action c)
       | None => VNone
       end)].

(** Lines 170-204. *)
Definition prepare_results : M value :=
  fun st =>
    match spam_percentage (spam_count st) (emails st) with
    | inl e => (inl e, st)
    | inr pct =>
        (inr (VDict [("total_processed", VInt (Z.of_nat (List.length (emails st))));
                     ("spam_count", VInt (spam_count st));
                     ("not_spam_count", VInt (not_spam_count st));
                     ("spam_percentage", pct);
                     ("emails", VList (map email_projection (emails st)))]),
         st)
    end.

(** ["=" * 60] and ["-" * 60] *)
Fixpoint repeat_string (s : string) (n : nat) : string :=
  match n with
  | O => ""
  | S n' => (s ++ repeat_string s n')%string
  end.

(** Lines 217-229: the block logged for one entry of [results["emails"]]. *)
Definition log_email (email_result : value) : M unit :=
  logger_info [Lit ""] ;;;
  s <- lift (Py.index email_result "subject") ;;
  logger_info [Lit "Subject: "; Interp s ""] ;;;
  f <- lift (Py.index email_result "from") ;;
  logger_info [Lit "From: "; Interp f ""] ;;;
  b <- lift (Py.index email_result "is_spam") ;;
  c <- lift (Py.index email_result "confidence") ;;
  logger_info [Lit "Classification: "; Lit (verdict (Py.truthy b)); Lit " ";
               Lit "(confidence: "; Interp c ""; Lit ")"] ;;;
  b' <- lift (Py.index email_result "is_spam") ;;
  (if Py.truthy b' then
     t <- lift (Py.index email_result "spam_type") ;;
     logger_info [Lit "Spam Type: "; Interp t ""]
   else ret tt) ;;;
  r <- lift (Py.index email_result "reasoning") ;;
  logger_info [Lit "Reasoning: "; Interp r ""] ;;;
  a <- lift (Py.index email_result "recommended_action") ;;
  logger_info [Lit "Recommended Action: "; Interp a ""] ;;;
  logger_info [Lit (repeat_string "-" 60)].

(** Lines 206-229. *)
Definition log_summary (results : value) : M unit :=
  logger_info [Lit (repeat_string "=" 60)] ;;;
  logger_info [Lit "SPAM CLASSIFICATION SUMMARY"] ;;;
  logger_info [Lit (repeat_string "=" 60)] ;;;
  t <- lift (Py.index results "total_processed") ;;
  logger_info [Lit "Total emails processed: "; Interp t ""] ;;;
  s <- lift (Py.index results "spam_count") ;;
  logger_info [Lit "Spam emails: "; Interp s ""] ;;;
  n <- lift (Py.index results "not_spam_count") ;;
  logger_info [Lit "Not spam emails: "; Interp n ""] ;;;
  p <- lift (Py.index results "spam_percentage") ;;
  logger_info [Lit "Spam percentage: "; Interp p ""; Lit "%"] ;;;
  logger_info [Lit (repeat_string "=" 60)] ;;;
  es <- lift (Py.index results "emails") ;;
  items <- lift (Py.iter es) ;;
  for_each items log_email.

(** Lines 92-231: what follows a non-empty listing. *)
Definition classify_all (gmail : McpServer) (messages : value) : M value :=
  items <- lift (Py.iter messages) ;;
  for_each (Py.enumerate items 1)
           (fun im => process_message gmail messages (fst im) (snd im)) ;;;
  results <- prepare_results ;;
  log_summary results ;;;
  ret results.

(** [classify_spam_workflow(max_emails, label)] *)
Definition classify_spam_workflow (max_emails : Z) (label : string) : M value :=
  logger_info [Lit "Starting spam classification for up to ";
               Interp (VInt max_emails) ""; Lit " emails from ";
               Interp (VStr label) ""] ;;;
  match servers_get (mcp_servers app) "gmail" with
  | None => raise _ (ValueError "Gmail MCP server not configured")
  | Some gmail =>
      logger_info [Lit "Fetching emails from "; Interp (VStr label) "";
                   Lit "..."] ;;;
      r <- list_emails gmail max_emails label ;;
      match r with
      | inl summary => ret summary
      | inr messages => classify_all gmail messages
      end
  end.

End Workflow.

Arguments ret {World A} _ _.
Arguments raise {World A} _ _.
Arguments lift {World A} _ _.
Arguments initial {World} _.

(** ** A scripted world, to run the workflow on concrete inputs *)

Module Script.

(** What the listing tool answers, what fetching each message id answers,
    and the answers the model will give, in order. *)
Record world : Type := mkWorld {
  listing : result value;
  mailbox : list (string * result value);
  replies : list (result (option EmailClassification))
}.

Fixpoint fetch (box : list (string * result value)) (key : string)
  : result value :=
  match box with
  | [] => inl (CollaboratorError "no such message")
  | (k, r) :: box' => if String.eqb k key then r else fetch box' key
  end.

Definition gmail : McpServer world :=
  mkMcpServer
    (fun name args w =>
       if String.eqb name "gmail_list_messages" then (listing w, w)
       else if String.eqb name "gmail_get_message" then
         match Py.get args "message_id" VNone with
         | inr (VStr i) => (fetch (mailbox w) i, w)
         | _ => (inl (CollaboratorError "bad message id"), w)
         end
       else (inl (CollaboratorError "unknown tool"), w)).

Definition model : Llm world :=
  mkLlm
    (fun _ w =>
       match replies w with
       | [] => (inl (CollaboratorError "no reply left"), w)
       | r :: rs => (r, mkWorld (listing w) (mailbox w) rs)
       end).

Definition app : MCPApp world := mkMCPApp [("gmail", gmail)] model.

(** An application on which no Gmail server is configured. *)
Definition app_without_gmail : MCPApp world := mkMCPApp [] model.

Definition entry (id : string) : value := VDict [("id", VStr id)].

Definition message (subject from snippet : string) : result value :=
  inr (VDict [("subject", VStr subject); ("from", VStr from);
              ("snippet", VStr snippet)]).

Definition verdict (spam : bool) (confidence : PyFloat.float) (kind : string)
  : result (option EmailClassification) :=
  inr (Some (mkEmailClassification spam confidence (mkSpamType kind)
               "because" (if spam then "delete" else "keep"))).

Definition listed (entries : list value) : result value :=
  inr (VDict [("messages", VList entries)]).

(** The listing answers no message at all. *)
Definition empty_inbox : world := mkWorld (listed []) [] [].

(** Three messages: two spam (0.9 and 0.8), one not (0.95). *)
Definition three_messages : world :=
  mkWorld (listed [entry "m1"; entry "m2"; entry "m3"])
          [("m1", message "You won" "lottery@example.com" "Claim now");
           ("m2", message "Lunch?" "friend@example.com" "Are you free");
           ("m3", message "Cheap pills" "shop@example.com" "Buy")]
          [verdict true (PyFloat.decimal 9 1) "scam";
           verdict false (PyFloat.decimal 95 2) "legitimate";
           verdict true (PyFloat.decimal 8 1) "marketing"].

(** The same three messages, fetching the second one fails. *)
Definition second_fetch_fails : world :=
  mkWorld (listed [entry "m1"; entry "m2"; entry "m3"])
          [("m1", message "You won" "lottery@example.com" "Claim now");
           ("m2", inl (CollaboratorError "timeout"));
           ("m3", message "Cheap pills" "shop@example.com" "Buy")]
          [verdict true (PyFloat.decimal 9 1) "scam";
           verdict true (PyFloat.decimal 8 1) "marketing"].

(** Two messages whose fetch and classification both fail. *)
Definition all_fail : world :=
  mkWorld (listed [entry "m1"; entry "m2"])
          [("m1", inl (CollaboratorError "timeout"));
           ("m2", message "Hi" "a@example.com" "")]
          [inl (CollaboratorError "model unavailable")].

(** One message without subject, sender or snippet, between two entries
    without a usable id. *)
Definition bare_message : world :=
  mkWorld (listed [VDict []; entry "m1"; entry ""])
          [("m1", inr (VDict []))]
          [verdict false (PyFloat.decimal 5 1) "other"].

(** Four messages: fetching the second fails, classifying the third fails. *)
Definition mixed_failures : world :=
  mkWorld (listed [entry "m1"; entry "m2"; entry "m3"; entry "m4"])
          [("m1", message "You won" "lottery@example.com" "Claim now");
           ("m2", inl (CollaboratorError "timeout"));
           ("m3", message "Lunch?" "friend@example.com" "Are you free");
           ("m4", inr (VDict [("subject", VStr "Cheap pills")]))]
          [verdict true (PyFloat.decimal 9 1) "scam";
           inl (CollaboratorError "model unavailable");
           verdict true (PyFloat.decimal 8 1) "marketing"].

(** The listing call itself fails. *)
Definition listing_fails : world :=
  mkWorld (inl (CollaboratorError "unauthorized")) [] [].

Definition run (a : MCPApp world) (w : world) : result value * St world :=
  classify_spam_workflow a 20 "INBOX" (initial w).

(** The value returned by the run from [w], [VNone] if it raised. *)
Definition returned (w : world) : value :=
  match fst (run app w) with
  | inr summary => summary
  | inl _ => VNone
  end.

(** The state in which the run from [w] ended. *)
Definition final (w : world) : St world := snd (run app w).

End Script.

(** ** Reading a trace and a summary *)

Definition is_call (ev : event) : bool :=
  match ev with
  | Log _ _ => false
  | _ => true
  end.

(** The external calls of a trace, in order. *)
Definition calls (tr : list event) : list event := filter is_call tr.

(** A classification call that came back with a classification. *)
Definition is_completed (ev : event) : bool :=
  match ev with
  | LlmRun _ (inr (Some _)) => true
  | _ => false
  end.

Definition completed (tr : list event) : nat := List.length (filter is_completed tr).

(** A per-message call (fetch or classification) that raised. *)
Definition is_failed_call (ev : event) : bool :=
  match ev with
  | ToolCall name _ (inl _) => String.eqb name "gmail_get_message"
  | LlmRun _ (inl _) => true
  | _ => false
  end.

Definition failed_calls (tr : list event) : nat :=
  List.length (filter is_failed_call tr).

(** The message id of an "Error processing email" record (line 165). *)
Definition error_id (ev : event) : list value :=
  match ev with
  | Log ERROR [Lit "Error processing email "; Interp id _; Lit ": "; InterpExn _] =>
      [id]
  | _ => []
  end.

(** The message ids the run logged an error for, in order. *)
Definition error_ids (tr : list event) : list value := flat_map error_id tr.

Definition fetched_id (ev : event) : list value :=
  match ev with
  | ToolCall "gmail_get_message" (VDict [("message_id", id)]) _ => [id]
  | _ => []
  end.

(** The message ids handed to [gmail_get_message], in call order. *)
Definition fetched_ids (tr : list event) : list value := flat_map fetched_id tr.

Definition llm_request (ev : event) : list LlmRequest :=
  match ev with
  | LlmRun req _ => [req]
  | _ => []
  end.

(** The requests submitted to the model, in call order. *)
Definition llm_requests (tr : list event) : list LlmRequest :=
  flat_map llm_request tr.

Definition answered_request (ev : event) : list LlmRequest :=
  match ev with
  | LlmRun req (inr (Some _)) => [req]
  | _ => []
  end.

(** The requests that came back with a classification, in call order. *)
Definition answered_requests (tr : list event) : list LlmRequest :=
  flat_map answered_request tr.

Definition is_info_log (ev : event) : bool :=
  match ev with
  | Log INFO _ => true
  | _ => false
  end.

(** The request the workflow builds for one record. *)
Definition request_for (info : EmailInfo) : LlmRequest :=
  mkLlmRequest
    (VList [VDict [("role", VStr "user");
                   ("content",
                    VStr (classification_prompt (from_address info)
                            (subject info) (snippet info)))]])
    EmailClassification_schema
    (PyFloat.decimal 1 1).

(** The [id] of a listed entry, [None] for an entry that is not a dict. *)
Definition entry_id (message : value) : value :=
  match Py.get message "id" VNone with
  | inr v => v
  | inl _ => VNone
  end.

(** The ids of the listed entries that have a usable one. *)
Definition usable_ids (messages : list value) : list value :=
  filter Py.truthy (map entry_id messages).


(** A field of a returned summary. *)
Definition field (summary : value) (key : string) : option value :=
  match summary with
  | VDict d => Py.lookup d key
  | _ => None
  end.

Definition flagged (email : EmailInfo) : bool :=
  match classification email with
  | Some c => is_spam c
  | None => false
  end.

Definition cleared (email : EmailInfo) : bool :=
  match classification email with
  | Some c => negb (is_spam c)
  | None => false
  end.

Definition classified (email : EmailInfo) : Prop :=
  exists c, classification email = Some c.

(** What the first half of the [try] makes of a fetched message: the three
    fields with their defaults, then the validation of [EmailInfo]. *)
Definition extract (email_id email_result : value) : result EmailInfo :=
  match Py.get email_result "subject" (VStr "(no subject)") with
  | inl e => inl e
  | inr subject =>
      match Py.get email_result "from" (VStr "unknown") with
      | inl e => inl e
      | inr from_address =>
          match Py.get email_result "snippet" (VStr "") with
          | inl e => inl e
          | inr snippet => EmailInfo_init email_id subject from_address snippet
          end
      end
  end.

Definition with_classification (info : EmailInfo) (c : EmailClassification)
  : EmailInfo :=
  mkEmailInfo (email_id info) (subject info) (from_address info) (snippet info)
              (Some c).

Definition fetch_call (id : value) (res : result value) : event :=
  ToolCall "gmail_get_message" (VDict [("message_id", id)]) res.

Definition item_error (id : value) (e : exn) : event :=
  Log ERROR [Lit "Error processing email "; Interp id ""; Lit ": "; InterpExn e].

Definition classifying (info : EmailInfo) : event :=
  Log INFO [Lit "Classifying email: ";
            Interp (VStr (substring 0 50 (subject info))) ""; Lit "..."].

Definition classified_log (c : EmailClassification) : event :=
  Log INFO [Lit "Email classified: "; Lit (verdict (is_spam c)); Lit " ";
            Lit "(confidence: "; Interp (VFloat (confidence c)) ".2f"; Lit ")"].

(** The events of one [try] (lines 103-167) for the id [id], and the
    records it appends. *)
Inductive item_run (id : value) : list event -> list EmailInfo -> Prop :=
| item_fetch_failed e :
    item_run id [fetch_call id (inl e); item_error id e] []
| item_malformed v e :
    extract id v = inl e ->
    item_run id [fetch_call id (inr v); item_error id e] []
| item_llm_failed v info e :
    extract id v = inr info ->
    item_run id [fetch_call id (inr v); classifying info;
                 LlmRun (request_for info) (inl e); item_error id e] []
| item_llm_none v info :
    extract id v = inr info ->
    item_run id [fetch_call id (inr v); classifying info;
                 LlmRun (request_for info) (inr None);
                 item_error id AttributeError] []
| item_recorded v info c :
    extract id v = inr info ->
    item_run id [fetch_call id (inr v); classifying info;
                 LlmRun (request_for info) (inr (Some c)); classified_log c]
             [with_classification info c].

Definition processing (idx total : nat) (id : value) : event :=
  Log INFO [Lit "Processing email "; Interp (VInt (Z.of_nat idx)) "";
            Lit "/"; Interp (VInt (Z.of_nat total)) ""; Lit ": "; Interp id ""].

(** The events of the whole loop over the listed entries (all of them
    dicts), numbered from [idx], and the records it appends. *)
Inductive loop_run (total : nat) : nat -> list value -> list event -> list EmailInfo -> Prop :=
| loop_done idx : loop_run total idx [] [] []
| loop_skip idx d rest tr new :
    Py.truthy (entry_id (VDict d)) = false ->
    loop_run total (S idx) rest tr new ->
    loop_run total idx (VDict d :: rest) tr new
| loop_item idx d rest tr1 new1 tr new :
    Py.truthy (entry_id (VDict d)) = true ->
    item_run (entry_id (VDict d)) tr1 new1 ->
    loop_run total (S idx) rest tr new ->
    loop_run total idx (VDict d :: rest)
             (processing idx total (entry_id (VDict d)) :: tr1 ++ tr) (new1 ++ new).

(** ** The runs of the workflow, as relations on traces *)

Section Runs.

Variable World : Type.
Variable app : MCPApp World.

(** How many records of [l] satisfy [p]. *)
Definition count (p : EmailInfo -> bool) (l : list EmailInfo) : Z :=
  Z.of_nat (List.length (filter p l)).

(** The state [st] after more events and more records. *)
Definition extend (st : St World) (w : World) (tr : list event)
           (new : list EmailInfo) : St World :=
  mkSt w (trace st ++ tr) (emails st ++ new)
       (spam_count st + count flagged new)
       (not_spam_count st + count cleared new).

(** Only a dict has the [get] method called on each listed entry. *)
Definition is_dict (v : value) : bool :=
  match v with
  | VDict _ => true
  | _ => false
  end.

(** The body of the loop, on a pair produced by [enumerate]. *)
Definition loop_body (gmail : McpServer World) (messages : value)
  : nat * value -> M World unit :=
  fun im => process_message app gmail messages (fst im) (snd im).

Definition start_log (max_emails : Z) (label : string) : event :=
  Log INFO [Lit "Starting spam classification for up to ";
            Interp (VInt max_emails) ""; Lit " emails from ";
            Interp (VStr label) ""].

Definition fetching_log (label : string) : event :=
  Log INFO [Lit "Fetching emails from "; Interp (VStr label) ""; Lit "..."].

Definition listing_call (max_emails : Z) (label : string) (res : result value)
  : event :=
  ToolCall "gmail_list_messages"
           (VDict [("max_results", VInt max_emails);
                   ("label_ids", VList [VStr label])]) res.

Definition list_error_log (e : exn) : event :=
  Log ERROR [Lit "Error listing emails: "; InterpExn e].

Definition no_emails_log : event := Log INFO [Lit "No emails found to classify"].

Definition found_log (n : nat) : event :=
  Log INFO [Lit "Found "; Interp (VInt (Z.of_nat n)) ""; Lit " emails to classify"].

(** The dictionary of lines 78-83. *)
Definition empty_summary : value :=
  VDict [("total_processed", VInt 0);
         ("spam_count", VInt 0);
         ("not_spam_count", VInt 0);
         ("emails", VList [])].

Definition percentage (new : list EmailInfo) : value :=
  match new with
  | [] => VInt 0
  | _ :: _ =>
      VFloat (PyFloat.round
                (PyFloat.mul
                   (PyFloat.quotient (count flagged new) (Z.of_nat (List.length new)))
                   (PyFloat.of_int 100)) 1)
  end.

(** The dictionary of lines 170-204 for the records [new]. *)
Definition summary_of (new : list EmailInfo) : value :=
  VDict [("total_processed", VInt (Z.of_nat (List.length new)));
         ("spam_count", VInt (count flagged new));
         ("not_spam_count", VInt (count cleared new));
         ("spam_percentage", percentage new);
         ("emails", VList (map email_projection new))].

(** Every way a run of the workflow from the world [w] can go: the value
    returned or the exception raised, and the final state. *)
Inductive workflow_run (w : World) (max_emails : Z) (label : string)
  : result value -> St World -> Prop :=
| run_no_server :
    servers_get (mcp_servers app) "gmail" = None ->
    workflow_run w max_emails label
      (inl (ValueError "Gmail MCP server not configured"))
      (mkSt w [start_log max_emails label] [] 0 0)
| run_listing_failed gmail e w1 :
    servers_get (mcp_servers app) "gmail" = Some gmail ->
    call_tool gmail "gmail_list_messages"
              (VDict [("max_results", VInt max_emails);
                      ("label_ids", VList [VStr label])]) w = (inl e, w1) ->
    workflow_run w max_emails label (inl e)
      (mkSt w1 [start_log max_emails label; fetching_log label;
                listing_call max_emails label (inl e); list_error_log e] [] 0 0)
| run_listing_malformed gmail list_result e w1 :
    servers_get (mcp_servers app) "gmail" = Some gmail ->
    call_tool gmail "gmail_list_messages"
              (VDict [("max_results", VInt max_emails);
                      ("label_ids", VList [VStr label])]) w
    = (inr list_result, w1) ->
    Py.get list_result "messages" (VList []) = inl e ->
    workflow_run w max_emails label (inl e)
      (mkSt w1 [start_log max_emails label; fetching_log label;
                listing_call max_emails label (inr list_result);
                list_error_log e] [] 0 0)
| run_empty gmail list_result messages w1 :
    servers_get (mcp_servers app) "gmail" = Some gmail ->
    call_tool gmail "gmail_list_messages"
              (VDict [("max_results", VInt max_emails);
                      ("label_ids", VList [VStr label])]) w
    = (inr list_result, w1) ->
    Py.get list_result "messages" (VList []) = inr messages ->
    Py.truthy messages = false ->
    workflow_run w max_emails label (inr empty_summary)
      (mkSt w1 [start_log max_emails label; fetching_log label;
                listing_call max_emails label (inr list_result);
                no_emails_log] [] 0 0)
| run_unsized gmail list_result messages e w1 :
    servers_get (mcp_servers app) "gmail" = Some gmail ->
    call_tool gmail "gmail_list_messages"
              (VDict [("max_results", VInt max_emails);
                      ("label_ids", VList [VStr label])]) w
    = (inr list_result, w1) ->
    Py.get list_result "messages" (VList []) = inr messages ->
    Py.truthy messages = true ->
    Py.len messages = inl e ->
    workflow_run w max_emails label (inl e)
      (mkSt w1 [start_log max_emails label; fetching_log label;
                listing_call max_emails label (inr list_result);
                list_error_log e] [] 0 0)
| run_bad_entry gmail list_result messages total items w1 w2 good bad rest tr new :
    servers_get (mcp_servers app) "gmail" = Some gmail ->
    call_tool gmail "gmail_list_messages"
              (VDict [("max_results", VInt max_emails);
                      ("label_ids", VList [VStr label])]) w
    = (inr list_result, w1) ->
    Py.get list_result "messages" (VList []) = inr messages ->
    Py.truthy messages = true ->
    Py.len messages = inr total ->
    Py.iter messages = inr items ->
    items = good ++ bad :: rest ->
    is_dict bad = false ->
    loop_run total 1 good tr new ->
    workflow_run w max_emails label (inl AttributeError)
      (mkSt w2 ([start_log max_emails label; fetching_log label;
                 listing_call max_emails label (inr list_result);
                 found_log total] ++ tr)
            new (count flagged new) (count cleared new))
| run_summary gmail list_result messages total items w1 w2 tr new logs :
    servers_get (mcp_servers app) "gmail" = Some gmail ->
    call_tool gmail "gmail_list_messages"
              (VDict [("max_results", VInt max_emails);
                      ("label_ids", VList [VStr label])]) w
    = (inr list_result, w1) ->
    Py.get list_result "messages" (VList []) = inr messages ->
    Py.truthy messages = true ->
    Py.len messages = inr total ->
    Py.iter messages = inr items ->
    forallb is_dict items = true ->
    loop_run total 1 items tr new ->
    forallb is_info_log logs = true ->
    workflow_run w max_emails label (inr (summary_of new))
      (mkSt w2 ([start_log max_emails label; fetching_log label;
                 listing_call max_emails label (inr list_result);
                 found_log total] ++ tr ++ logs)
            new (count flagged new) (count cleared new)).

End Runs.

Arguments workflow_run {World} _ _ _ _ _ _.

(** ** Statements about runs *)

(** The record built from a fetch that returned, when the fields and the
    validation went through: the messages that reach the model call. *)
Definition extracted_record (ev : event) : list EmailInfo :=
  match ev with
  | ToolCall "gmail_get_message" (VDict [("message_id", id)]) (inr v) =>
      match extract id v with
      | inr info => [info]
      | inl _ => []
      end
  | _ => []
  end.

(** The records built from the fetches of a trace, in call order. *)
Definition extracted (tr : list event) : list EmailInfo :=
  flat_map extracted_record tr.

(** The id shown for an entry of the summary. *)
Definition projected_id (e : value) : value :=
  match field e "email_id" with
  | Some v => v
  | None => VNone
  end.

(** The shape of every request: one user message holding the prompt, the
    [EmailClassification] schema, the temperature 0.1. *)
Definition well_formed_request (req : LlmRequest) : Prop :=
  exists from_address subject snippet,
    req = mkLlmRequest
            (VList [VDict [("role", VStr "user");
                           ("content",
                            VStr (classification_prompt from_address subject snippet))]])
            EmailClassification_schema
            (PyFloat.decimal 1 1).


(** A field of a fetched message is absent or a string. *)
Definition text_or_absent (d : list (string * value)) (key : string) : bool :=
  match Py.lookup d key with
  | None => true
  | Some (VStr _) => true
  | Some _ => false
  end.

(** [get_message] answers [{subject?: string, from?: string, snippet?: string}]. *)
Definition well_formed_message (v : value) : bool :=
  match v with
  | VDict d =>
      text_or_absent d "subject" && text_or_absent d "from"
      && text_or_absent d "snippet"
  | _ => false
  end.

(** A listed entry carries a non-empty string id. *)
Definition well_formed_entry (m : value) : bool :=
  match m with
  | VDict d =>
      match Py.lookup d "id" with
      | Some (VStr s) => negb (String.eqb s "")
      | _ => false
      end
  | _ => false
  end.

(** The collaborators kept to their contracts: a fetch that returned gave a
    well-formed message, a classification that returned gave a
    classification. *)
Definition contract_event (ev : event) : bool :=
  match ev with
  | ToolCall name _ (inr v) =>
      if String.eqb name "gmail_get_message" then well_formed_message v else true
  | LlmRun _ (inr None) => false
  | _ => true
  end.

Definition contract_respected (tr : list event) : bool := forallb contract_event tr.

(** The text of a field, or the default when the field is absent. *)
Definition or_default (default : string) (o : option string) : string :=
  match o with
  | Some t => t
  | None => default
  end.

(** The prompt template as the specification prints it, with the three
    values substituted. *)
Definition spec_prompt_template (from_address subject snippet : string) : string :=
  ("Analyze this email and classify it as spam or not spam." ++ LF
   ++ LF
   ++ "**Email Details:**" ++ LF
   ++ "- From: " ++ from_address ++ LF
   ++ "- Subject: " ++ subject ++ LF
   ++ "- Preview: " ++ snippet ++ LF
   ++ LF
   ++ "Consider the following factors:" ++ LF
   ++ "1. Sender reputation and authenticity" ++ LF
   ++ "2. Subject line characteristics (urgency, sensationalism, suspicious patterns)" ++ LF
   ++ "3. Content quality and professionalism" ++ LF
   ++ "4. Presence of phishing indicators" ++ LF
   ++ "5. Marketing/promotional characteristics" ++ LF
   ++ LF
   ++ "Provide a structured classification with confidence score, spam type, reasoning, and recommended action.")%string.

(** An entry of the summary whose five classification fields are a
    boolean, a float and three strings: none of them is null. *)
Definition fully_classified (e : value) : Prop :=
  exists b f t r a,
    field e "is_spam" = Some (VBool b)
    /\ field e "confidence" = Some (VFloat f)
    /\ field e "spam_type" = Some (VStr t)
    /\ field e "reasoning" = Some (VStr r)
    /\ field e "recommended_action" = Some (VStr a).

(** ** Running the file as a script *)

Section Main.

Variable World : Type.
Variable app : MCPApp World.

(** Lines 234-238: the workflow is run on 20 messages of INBOX, then two
    lines are printed from the dictionary it returned.  The result is the
    outcome, the final state and the lines printed so far; the first line is
    out before the second is formatted. *)
Definition main (w : World) : result unit * St World * list (list fragment) :=
  match classify_spam_workflow app 20 "INBOX" (initial w) with
  | (inl e, st) => (inl e, st, [])
  | (inr result, st) =>
      match Py.index result "total_processed" with
      | inl e => (inl e, st, [])
      | inr t =>
          let line1 := [Lit (LF ++ "Processed ")%string; Interp t ""; Lit " emails"] in
          match Py.index result "spam_count" with
          | inl e => (inl e, st, [line1])
          | inr s =>
              match Py.index result "spam_percentage" with
              | inl e => (inl e, st, [line1])
              | inr p =>
                  (inr tt, st,
                   [line1;
                    [Lit "Found "; Interp s ""; Lit " spam emails (";
                     Interp p ""; Lit "%)"]])
              end
          end
      end
  end.

End Main.

(** ** More scripted worlds *)

(** The second listed entry is a bare id, not a dict. *)
Definition bare_id_listing : Script.world :=
  Script.mkWorld
    (Script.listed [Script.entry "m1"; VStr "m2"; Script.entry "m3"])
    [("m1", Script.message "You won" "lottery@example.com" "Claim now");
     ("m3", Script.message "Cheap pills" "shop@example.com" "Buy")]
    [Script.verdict true (PyFloat.decimal 9 1) "scam";
     Script.verdict true (PyFloat.decimal 8 1) "marketing"].

(** The listing answers a list of entries, not a dict holding one. *)
Definition list_for_listing : Script.world :=
  Script.mkWorld (inr (VList [Script.entry "m1"])) [] [].

(** The listing answers a count where the entries should be. *)
Definition count_for_messages : Script.world :=
  Script.mkWorld (inr (VDict [("messages", VInt 3)])) [] [].

(** One message whose subject is null, one whose fetch answers a string,
    one answered by the model with nothing, one whose id is a number. *)
Definition odd_answers : Script.world :=
  Script.mkWorld
    (Script.listed [Script.entry "m1"; Script.entry "m2"; Script.entry "m3";
                    VDict [("id", VInt 7)]])
    [("m1", inr (VDict [("subject", VNone); ("from", VStr "a@example.com")]));
     ("m2", inr (VStr "not found"));
     ("m3", Script.message "Hi" "b@example.com" "")]
    [inr None].

(** ** More readings of a trace and of a summary *)

(** A tool call that only reads the mailbox. *)
Definition is_read_only (ev : event) : bool :=
  match ev with
  | ToolCall name _ _ =>
      String.eqb name "gmail_list_messages" || String.eqb name "gmail_get_message"
  | _ => true
  end.

Definition is_listing (ev : event) : bool :=
  match ev with
  | ToolCall name _ _ => String.eqb name "gmail_list_messages"
  | _ => false
  end.

Definition is_str (v : value) : bool :=
  match v with
  | VStr _ => true
  | _ => false
  end.

(** [email_result.get(key, default)] on the dict [d]. *)
Definition fetched_field (d : list (string * value)) (key default : string) : value :=
  match Py.lookup d key with
  | Some x => x
  | None => VStr default
  end.

(** The position, the total and the id of a "Processing email" record
    (line 101). *)
Definition processing_record (ev : event) : list (value * value * value) :=
  match ev with
  | Log INFO [Lit "Processing email "; Interp i _; Lit "/"; Interp n _; Lit ": ";
              Interp id _] => [(i, n, id)]
  | _ => []
  end.

Definition processing_records (tr : list event) : list (value * value * value) :=
  flat_map processing_record tr.

(** The entries with a usable id, each with its position in the listing
    counted from [idx] and the length [total] of the listing. *)
Fixpoint numbered (idx total : nat) (entries : list value)
  : list (value * value * value) :=
  match entries with
  | [] => []
  | m :: rest =>
      (if Py.truthy (entry_id m)
       then [(VInt (Z.of_nat idx), VInt (Z.of_nat total), entry_id m)]
       else [])
      ++ numbered (S idx) total rest
  end.

(** The subject of a "Subject:" record of the final report (line 219). *)
Definition logged_subject (ev : event) : list value :=
  match ev with
  | Log INFO [Lit "Subject: "; Interp s _] => [s]
  | _ => []
  end.

Definition logged_subjects (tr : list event) : list value :=
  flat_map logged_subject tr.

(** The type of a "Spam Type:" record of the final report (line 226). *)
Definition logged_spam_type (ev : event) : list value :=
  match ev with
  | Log INFO [Lit "Spam Type: "; Interp t _] => [t]
  | _ => []
  end.

Definition logged_spam_types (tr : list event) : list value :=
  flat_map logged_spam_type tr.

Definition entry_subject (e : value) : value :=
  match field e "subject" with
  | Some v => v
  | None => VNone
  end.

(** The spam type of an entry of the summary flagged as spam. *)
Definition entry_spam_type (e : value) : list value :=
  match field e "is_spam", field e "spam_type" with
  | Some (VBool true), Some t => [t]
  | _, _ => []
  end.

Definition entry_keys (e : value) : list string :=
  match e with
  | VDict d => map fst d
  | _ => []
  end.

Definition banner : event := Log INFO [Lit (repeat_string "=" 60)].

(** The records of lines 217-229 for one record of [emails]. *)
Definition email_block (email : EmailInfo) : list event :=
  [Log INFO [Lit ""];
   Log INFO [Lit "Subject: "; Interp (VStr (subject email)) ""];
   Log INFO [Lit "From: "; Interp (VStr (from_address email)) ""];
   Log INFO [Lit "Classification: "; Lit (verdict (flagged email)); Lit " ";
             Lit "(confidence: ";
             Interp (match classification email with
                     | Some c => VFloat (PyFloat.round (confidence c) 2)
                     | None => VNone
                     end) "";
             Lit ")"]]
  ++ (if flagged email
      then [Log INFO [Lit "Spam Type: ";
                      Interp (match classification email with
                              | Some c => VStr (category (spam_type c))
                              | None => VNone
                              end) ""]]
      else [])
  ++ [Log INFO [Lit "Reasoning: ";
                Interp (match classification email with
                        | Some c => VStr (reasoning c)
                        | None => VNone
                        end) ""];
      Log INFO [Lit "Recommended Action: ";
                Interp (match classification email with
                        | Some c => VStr (recommended_action c)
                        | None => VNone
                        end) ""];
      Log INFO [Lit (repeat_string "-" 60)]].

(** The records of lines 206-229 for the records [new]. *)
Definition summary_logs (new : list EmailInfo) : list event :=
  [banner;
   Log INFO [Lit "SPAM CLASSIFICATION SUMMARY"];
   banner;
   Log INFO [Lit "Total emails processed: ";
             Interp (VInt (Z.of_nat (List.length new))) ""];
   Log INFO [Lit "Spam emails: "; Interp (VInt (count flagged new)) ""];
   Log INFO [Lit "Not spam emails: "; Interp (VInt (count cleared new)) ""];
   Log INFO [Lit "Spam percentage: "; Interp (percentage new) ""; Lit "%"];
   banner]
  ++ flat_map email_block new.

(** * Proofs *)

(** ** Every run of the code is one of the relations *)

Section WorkflowFacts.

Variable World : Type.
Variable app : MCPApp World.

Lemma St_eq (w w' : World) tr tr' em em' sc sc' nc nc' :
  w = w' -> tr = tr' -> em = em' -> sc = sc' -> nc = nc' ->
  mkSt w tr em sc nc = mkSt w' tr' em' sc' nc'.
Proof. intros; subst; reflexivity. Qed.

Lemma extend_refl (st : St World) : extend st (world st) [] [] = st.
Proof.
  destruct st; unfold extend; simpl.
  apply St_eq; rewrite ?app_nil_r; auto; unfold count; simpl; lia.
Qed.

Lemma count_app p l1 l2 : count p (l1 ++ l2) = count p l1 + count p l2.
Proof. unfold count. rewrite filter_app, length_app. lia. Qed.

Lemma extend_extend (st : St World) w1 tr1 new1 w2 tr2 new2 :
  extend (extend st w1 tr1 new1) w2 tr2 new2
  = extend st w2 (tr1 ++ tr2) (new1 ++ new2).
Proof.
  unfold extend; simpl.
  apply St_eq; rewrite ?app_assoc, ?count_app; auto; lia.
Qed.

(** One [try] never raises, and its events and records are an [item_run]. *)
Lemma classify_email_run (gmail : McpServer World) (id : value) (st : St World) :
  exists w tr new,
    classify_email app gmail id st = (inr tt, extend st w tr new)
    /\ item_run id tr new.
Proof.
  unfold classify_email, try_except, bind, gmail_call_tool.
  destruct (call_tool gmail "gmail_get_message" (VDict [("message_id", id)]) (world st))
    as [[e | v] w1] eqn:Hfetch.
  - exists w1, [fetch_call id (inl e); item_error id e], []. split.
    + unfold logger_error, emit, extend; simpl.
      f_equal. apply St_eq; rewrite <- ?app_assoc, ?app_nil_r; auto;
        unfold count; simpl; lia.
    + constructor.
  - unfold lift.
    destruct (extract id v) as [e | info] eqn:Hx.
    + exists w1, [fetch_call id (inr v); item_error id e], []. split.
      * unfold extract in Hx.
        destruct (Py.get v "subject" (VStr "(no subject)")) as [e1 | s]; simpl;
          [ inversion Hx; subst | ].
        2: destruct (Py.get v "from" (VStr "unknown")) as [e2 | f]; simpl;
          [ inversion Hx; subst | ].
        3: destruct (Py.get v "snippet" (VStr "")) as [e3 | p]; simpl;
          [ inversion Hx; subst | ].
        4: rewrite Hx; simpl.
        all: unfold logger_error, emit, extend; simpl; f_equal;
          apply St_eq; rewrite <- ?app_assoc, ?app_nil_r; auto;
          unfold count; simpl; lia.
      * constructor; assumption.
    + pose proof Hx as Hx'. unfold extract in Hx.
      destruct (Py.get v "subject" (VStr "(no subject)")) as [e1 | s]; [discriminate|].
      destruct (Py.get v "from" (VStr "unknown")) as [e2 | f]; [discriminate|].
      destruct (Py.get v "snippet" (VStr "")) as [e3 | p]; [discriminate|].
      simpl. rewrite Hx. simpl.
      unfold llm_run; simpl.
      destruct (run (llm app) (request_for info) w1) as [[e | [c |]] w2] eqn:Hrun;
        unfold request_for in Hrun; rewrite Hrun; simpl.
      * exists w2, [fetch_call id (inr v); classifying info;
                    LlmRun (request_for info) (inl e); item_error id e], [].
        split; [ | econstructor; eassumption ].
        unfold logger_error, emit, extend; simpl; f_equal;
          apply St_eq; rewrite <- ?app_assoc, ?app_nil_r; auto;
          unfold count; simpl; lia.
      * exists w2, [fetch_call id (inr v); classifying info;
                    LlmRun (request_for info) (inr (Some c)); classified_log c],
               [with_classification info c].
        split; [ | econstructor; eassumption ].
        unfold with_classification, extend, count, flagged, cleared.
        destruct (is_spam c) eqn:Hs; simpl; rewrite Hs; simpl; f_equal;
          apply St_eq; rewrite <- ?app_assoc, ?app_nil_r; simpl;
          unfold classified_log; rewrite ?Hs; auto; lia.
      * exists w2, [fetch_call id (inr v); classifying info;
                    LlmRun (request_for info) (inr None);
                    item_error id AttributeError], [].
        split; [ | econstructor; eassumption ].
        unfold logger_error, emit, extend; simpl; f_equal;
          apply St_eq; rewrite <- ?app_assoc, ?app_nil_r; auto;
          unfold count; simpl; lia.
Qed.

(** An entry without a usable id leaves the state as it is. *)
Lemma process_message_skip (gmail : McpServer World) messages idx d st :
  Py.truthy (entry_id (VDict d)) = false ->
  process_message app gmail messages idx (VDict d) st = (inr tt, st).
Proof.
  unfold entry_id, process_message, bind, lift. simpl.
  destruct (Py.lookup d "id"); intros H; rewrite H; reflexivity.
Qed.

(** An entry that is not a dict has no [get]: the exception leaves the loop. *)
Lemma process_message_not_dict (gmail : McpServer World) messages idx m st :
  is_dict m = false ->
  process_message app gmail messages idx m st = (inl AttributeError, st).
Proof.
  unfold process_message, bind, lift.
  destruct m; simpl; intros H; try discriminate; reflexivity.
Qed.

Lemma process_message_item (gmail : McpServer World) messages total idx d st :
  Py.len messages = inr total ->
  Py.truthy (entry_id (VDict d)) = true ->
  exists w tr new,
    process_message app gmail messages idx (VDict d) st
    = (inr tt, extend st w (processing idx total (entry_id (VDict d)) :: tr) new)
    /\ item_run (entry_id (VDict d)) tr new.
Proof.
  intros Hlen Hid.
  unfold process_message, bind, lift.
  assert (Hget : Py.get (VDict d) "id" VNone = inr (entry_id (VDict d))).
  { unfold entry_id. simpl. destruct (Py.lookup d "id"); reflexivity. }
  rewrite Hget, Hid, Hlen. simpl.
  destruct (classify_email_run gmail (entry_id (VDict d))
              (mkSt (world st)
                    (trace st ++ [processing idx total (entry_id (VDict d))])
                    (emails st) (spam_count st) (not_spam_count st)))
    as (w & tr & new & Heq & Hrun).
  exists w, tr, new. split; [ | exact Hrun ].
  unfold processing in *. rewrite Heq. f_equal.
  unfold extend; simpl. apply St_eq; rewrite <- ?app_assoc; auto.
Qed.

(** Over dict entries the loop runs to its end without raising. *)
Lemma for_each_run (gmail : McpServer World) messages total items :
  Py.len messages = inr total ->
  forallb is_dict items = true ->
  forall idx st,
  exists w tr new,
    for_each (Py.enumerate items idx) (loop_body app gmail messages) st
    = (inr tt, extend st w tr new)
    /\ loop_run total idx items tr new.
Proof.
  intros Hlen. induction items as [| m rest IH]; intros Hd idx st.
  - exists (world st), [], []. split; [ | constructor ].
    simpl. unfold ret. now rewrite extend_refl.
  - simpl in Hd. apply andb_prop in Hd. destruct Hd as [Hm Hrest].
    destruct m; try discriminate.
    simpl. unfold bind, loop_body at 1. simpl.
    destruct (Py.truthy (entry_id (VDict d))) eqn:Hid.
    + destruct (process_message_item gmail messages idx d st Hlen Hid)
        as (w1 & tr1 & new1 & Heq & Hrun).
      rewrite Heq.
      destruct (IH Hrest (S idx)
                   (extend st w1 (processing idx total (entry_id (VDict d)) :: tr1) new1))
        as (w & tr & new & Heq' & Hloop).
      exists w, (processing idx total (entry_id (VDict d)) :: tr1 ++ tr), (new1 ++ new).
      split; [ | now constructor ].
      rewrite Heq', extend_extend. reflexivity.
    + rewrite (process_message_skip gmail messages idx d st Hid).
      destruct (IH Hrest (S idx) st) as (w & tr & new & Heq' & Hloop).
      exists w, tr, new. split; [ exact Heq' | now constructor ].
Qed.

(** An entry that is not a dict stops the loop with an exception, after
    the entries before it have been processed. *)
Lemma for_each_fatal (gmail : McpServer World) messages total items :
  Py.len messages = inr total ->
  forallb is_dict items = false ->
  forall idx st,
  exists good bad rest w tr new,
    items = good ++ bad :: rest
    /\ is_dict bad = false
    /\ for_each (Py.enumerate items idx) (loop_body app gmail messages) st
       = (inl AttributeError, extend st w tr new)
    /\ loop_run total idx good tr new.
Proof.
  intros Hlen. induction items as [| m tl IH]; intros Hd idx st.
  - discriminate.
  - simpl in Hd. simpl. unfold bind, loop_body at 1. simpl.
    destruct (is_dict m) eqn:Hm.
    + destruct m; try discriminate. simpl in Hd.
      destruct (Py.truthy (entry_id (VDict d))) eqn:Hid.
      * destruct (process_message_item gmail messages idx d st Hlen Hid)
          as (w1 & tr1 & new1 & Heq & Hrun).
        rewrite Heq.
        destruct (IH Hd (S idx)
                     (extend st w1 (processing idx total (entry_id (VDict d)) :: tr1) new1))
          as (good & bad & rest & w & tr & new & Hit & Hbad & Heq' & Hloop).
        exists (VDict d :: good), bad, rest, w,
               (processing idx total (entry_id (VDict d)) :: tr1 ++ tr), (new1 ++ new).
        repeat split; [ now rewrite Hit | exact Hbad | | now constructor ].
        rewrite Heq', extend_extend. reflexivity.
      * rewrite (process_message_skip gmail messages idx d st Hid).
        destruct (IH Hd (S idx) st)
          as (good & bad & rest & w & tr & new & Hit & Hbad & Heq' & Hloop).
        exists (VDict d :: good), bad, rest, w, tr, new.
        repeat split; [ now rewrite Hit | exact Hbad | exact Heq' | now constructor ].
    + rewrite (process_message_not_dict gmail messages idx m st Hm).
      exists [], m, tl, (world st), [], [].
      repeat split; [ exact Hm | now rewrite extend_refl | constructor ].
Qed.

Ltac log_state :=
  apply St_eq;
  [ reflexivity
  | rewrite <- ?app_assoc; simpl; reflexivity
  | now rewrite app_nil_r
  | unfold count; simpl; lia
  | unfold count; simpl; lia ].

(** The block logged for a projected record: log records only. *)
Lemma log_email_run (email : EmailInfo) (st : St World) :
  exists logs,
    log_email (email_projection email) st = (inr tt, extend st (world st) logs [])
    /\ forallb is_info_log logs = true.
Proof.
  unfold log_email, email_projection, bind, lift, logger_info, emit, extend.
  simpl.
  destruct (classification email) as [c |]; simpl.
  - destruct (is_spam c); simpl; eexists; (split; [ f_equal; log_state | reflexivity ]).
  - eexists; (split; [ f_equal; log_state | reflexivity ]).
Qed.

Lemma log_emails_run (l : list EmailInfo) :
  forall st : St World,
  exists logs,
    for_each (map email_projection l) (@log_email World) st
    = (inr tt, extend st (world st) logs [])
    /\ forallb is_info_log logs = true.
Proof.
  induction l as [| email rest IH]; intros st.
  - exists []. split; [ | reflexivity ]. simpl. unfold ret.
    now rewrite extend_refl.
  - simpl. unfold bind.
    destruct (log_email_run email st) as (logs1 & Heq1 & Hc1). rewrite Heq1.
    destruct (IH (extend st (world st) logs1 [])) as (logs2 & Heq2 & Hc2).
    exists (logs1 ++ logs2). split.
    + rewrite Heq2, extend_extend. reflexivity.
    + rewrite forallb_app, Hc1, Hc2. reflexivity.
Qed.

Lemma count_bounds p (l : list EmailInfo) :
  0 <= count p l <= Z.of_nat (List.length l).
Proof.
  unfold count. pose proof (filter_length_le p l). lia.
Qed.

Lemma len_iter messages total :
  Py.len messages = inr total -> exists items, Py.iter messages = inr items.
Proof.
  destruct messages; simpl; intros H; try discriminate; eexists; reflexivity.
Qed.

(** The percentage never raises: the divisor is the number of records,
    which is positive there, and the quotient is at most one. *)
Lemma spam_percentage_value (new : list EmailInfo) :
  spam_percentage (count flagged new) new = inr (percentage new).
Proof.
  unfold spam_percentage, percentage.
  destruct new as [| x rest] eqn:Hnew; [ reflexivity | ].
  rewrite <- Hnew.
  pose proof (count_bounds flagged new) as Hb.
  assert (Hpos : 0 < Z.of_nat (List.length new)) by (subst new; simpl; lia).
  unfold Py.truediv.
  destruct (Z.of_nat (List.length new) =? 0) eqn:Hz; [ lia | ].
  remember (2 ^ 1024 - 2 ^ 970) as big eqn:Hbig.
  assert (Hone : 1 < big) by (subst big; vm_compute; reflexivity).
  clear Hbig.
  destruct (big * Z.abs (Z.of_nat (List.length new)) <=? Z.abs (count flagged new))
    eqn:Hov; [ | reflexivity ].
  apply Z.leb_le in Hov. nia.
Qed.

Lemma log_summary_run (new : list EmailInfo) (st : St World) :
  exists logs,
    log_summary (summary_of new) st = (inr tt, extend st (world st) logs [])
    /\ forallb is_info_log logs = true.
Proof.
  unfold log_summary, summary_of, bind, lift, logger_info, emit. simpl.
  match goal with
  | |- context [for_each _ _ ?s] =>
      destruct (log_emails_run new s) as (logs & Heq & Hc); rewrite Heq
  end.
  eexists. split.
  - f_equal. unfold extend. simpl. apply St_eq;
      [ reflexivity
      | rewrite <- ?app_assoc; simpl; reflexivity
      | reflexivity
      | unfold count; simpl; lia
      | unfold count; simpl; lia ].
  - simpl. exact Hc.
Qed.

(** What follows a non-empty listing whose entries are all dicts. *)
Lemma classify_all_run (gmail : McpServer World) messages total items tr0 w1 :
  Py.len messages = inr total ->
  Py.iter messages = inr items ->
  forallb is_dict items = true ->
  exists w2 tr new logs,
    classify_all app gmail messages (mkSt w1 tr0 [] 0 0)
    = (inr (summary_of new),
       mkSt w2 (tr0 ++ tr ++ logs) new (count flagged new) (count cleared new))
    /\ loop_run total 1 items tr new
    /\ forallb is_info_log logs = true.
Proof.
  intros Hlen Hiter Hd.
  unfold classify_all, bind, lift. rewrite Hiter.
  destruct (for_each_run gmail messages items Hlen Hd 1%nat (mkSt w1 tr0 [] 0 0))
    as (w2 & tr & new & Heq & Hloop).
  unfold loop_body in Heq. rewrite Heq.
  unfold prepare_results, extend. simpl.
  rewrite spam_percentage_value.
  fold (summary_of new).
  match goal with
  | |- context [log_summary _ ?s] =>
      destruct (log_summary_run new s) as (logs & Heq' & Hc); rewrite Heq'
  end.
  exists w2, tr, new, logs. split; [ | split; assumption ].
  unfold ret, extend. simpl. f_equal.
  apply St_eq; rewrite <- ?app_assoc, ?app_nil_r; auto; unfold count; simpl; lia.
Qed.

Lemma classify_all_fatal (gmail : McpServer World) messages total items tr0 w1 :
  Py.len messages = inr total ->
  Py.iter messages = inr items ->
  forallb is_dict items = false ->
  exists good bad rest w2 tr new,
    items = good ++ bad :: rest
    /\ is_dict bad = false
    /\ classify_all app gmail messages (mkSt w1 tr0 [] 0 0)
       = (inl AttributeError,
          mkSt w2 (tr0 ++ tr) new (count flagged new) (count cleared new))
    /\ loop_run total 1 good tr new.
Proof.
  intros Hlen Hiter Hd.
  unfold classify_all, bind, lift. rewrite Hiter.
  destruct (for_each_fatal gmail messages items Hlen Hd 1%nat (mkSt w1 tr0 [] 0 0))
    as (good & bad & rest & w2 & tr & new & Hit & Hbad & Heq & Hloop).
  unfold loop_body in Heq. rewrite Heq.
  exists good, bad, rest, w2, tr, new. repeat split; auto.
Qed.

(** Every run of the workflow is one of [workflow_run]. *)
Lemma classify_spam_workflow_run (w : World) (max_emails : Z) (label : string) :
  workflow_run app w max_emails label
    (fst (classify_spam_workflow app max_emails label (initial w)))
    (snd (classify_spam_workflow app max_emails label (initial w))).
Proof.
  unfold classify_spam_workflow, bind, logger_info, emit, initial. simpl.
  destruct (servers_get (mcp_servers app) "gmail") as [gmail |] eqn:Hg.
  2: { unfold raise. simpl. now constructor. }
  unfold list_emails, try_except, bind, gmail_call_tool. simpl.
  destruct (call_tool gmail "gmail_list_messages"
              (VDict [("max_results", VInt max_emails);
                      ("label_ids", VList [VStr label])]) w)
    as [[e | list_result] w1] eqn:Hcall.
  { simpl. eapply run_listing_failed; eassumption. }
  unfold lift.
  destruct (Py.get list_result "messages" (VList [])) as [e | messages] eqn:Hget.
  { simpl. eapply run_listing_malformed; eassumption. }
  destruct (Py.truthy messages) eqn:Ht; simpl.
  2: { eapply run_empty; eassumption. }
  destruct (Py.len messages) as [e | total] eqn:Hlen; simpl.
  { eapply run_unsized; eassumption. }
  destruct (len_iter messages Hlen) as (items & Hiter).
  destruct (forallb is_dict items) eqn:Hd.
  - match goal with
    | |- context [classify_all _ _ _ (mkSt ?w1 ?tr0 _ _ _)] =>
        destruct (classify_all_run gmail messages tr0 w1 Hlen Hiter Hd)
          as (w2 & tr & new & logs & Heq & Hloop & Hc)
    end.
    rewrite Heq. simpl.
    eapply run_summary; eassumption.
  - match goal with
    | |- context [classify_all _ _ _ (mkSt ?w1 ?tr0 _ _ _)] =>
        destruct (classify_all_fatal gmail messages tr0 w1 Hlen Hiter Hd)
          as (good & bad & rest & w2 & tr & new & Hit & Hbad & Heq & Hloop)
    end.
    rewrite Heq. simpl.
    eapply run_bad_entry; eassumption.
Qed.

End WorkflowFacts.

(** ** Facts about the events of one iteration and of the loop *)

Section RunFacts.

Lemma completed_app tr1 tr2 :
  completed (tr1 ++ tr2) = (completed tr1 + completed tr2)%nat.
Proof. unfold completed. now rewrite filter_app, length_app. Qed.

Lemma failed_calls_app tr1 tr2 :
  failed_calls (tr1 ++ tr2) = (failed_calls tr1 + failed_calls tr2)%nat.
Proof. unfold failed_calls. now rewrite filter_app, length_app. Qed.

Lemma error_ids_app tr1 tr2 : error_ids (tr1 ++ tr2) = error_ids tr1 ++ error_ids tr2.
Proof. apply flat_map_app. Qed.

Lemma fetched_ids_app tr1 tr2 :
  fetched_ids (tr1 ++ tr2) = fetched_ids tr1 ++ fetched_ids tr2.
Proof. apply flat_map_app. Qed.

Lemma llm_requests_app tr1 tr2 :
  llm_requests (tr1 ++ tr2) = llm_requests tr1 ++ llm_requests tr2.
Proof. apply flat_map_app. Qed.

Lemma answered_requests_app tr1 tr2 :
  answered_requests (tr1 ++ tr2) = answered_requests tr1 ++ answered_requests tr2.
Proof. apply flat_map_app. Qed.


(** Records logged at level INFO are invisible to every reading of a trace. *)
Lemma info_logs_silent logs :
  forallb is_info_log logs = true ->
  calls logs = [] /\ completed logs = 0%nat /\ failed_calls logs = 0%nat
  /\ error_ids logs = [] /\ fetched_ids logs = [] /\ llm_requests logs = []
  /\ answered_requests logs = [] /\ contract_respected logs = true.
Proof.
  induction logs as [| ev logs IH]; simpl; intros H.
  - repeat split.
  - apply andb_prop in H. destruct H as [Hev Hlogs].
    destruct (IH Hlogs) as (H1 & H2 & H3 & H4 & H5 & H6 & H7 & H8).
    destruct ev as [ | | [ | ] msg ]; try discriminate.
    unfold calls, completed, failed_calls, error_ids, fetched_ids,
      llm_requests, answered_requests, contract_respected in *.
    simpl. repeat split; assumption.
Qed.

Lemma extract_id id v info : extract id v = inr info -> id = VStr (email_id info).
Proof.
  unfold extract.
  destruct (Py.get v "subject" (VStr "(no subject)")) as [| s]; [ discriminate | ].
  destruct (Py.get v "from" (VStr "unknown")) as [| f]; [ discriminate | ].
  destruct (Py.get v "snippet" (VStr "")) as [| p]; [ discriminate | ].
  unfold EmailInfo_init.
  destruct id, s, f, p; intros H; try discriminate.
  inversion H. reflexivity.
Qed.

(** *** One iteration *)

Lemma item_run_classified id tr new : item_run id tr new -> Forall classified new.
Proof.
  destruct 1; constructor; try constructor.
  unfold classified, with_classification. simpl. eexists. reflexivity.
Qed.

Lemma item_run_completed id tr new :
  item_run id tr new -> completed tr = List.length new.
Proof. destruct 1; reflexivity. Qed.


Lemma item_run_fetched id tr new : item_run id tr new -> fetched_ids tr = [id].
Proof. destruct 1; reflexivity. Qed.

Lemma item_run_requests id tr new :
  item_run id tr new ->
  Forall well_formed_request (llm_requests tr)
  /\ answered_requests tr = map request_for new.
Proof.
  destruct 1; simpl; split; try reflexivity; repeat constructor;
    unfold well_formed_request, request_for; eauto.
Qed.


(** *** The loop *)

Lemma loop_run_classified total idx items tr new :
  loop_run total idx items tr new -> Forall classified new.
Proof.
  induction 1; auto.
  apply Forall_app. split; [ eapply item_run_classified; eassumption | assumption ].
Qed.

Lemma loop_run_completed total idx items tr new :
  loop_run total idx items tr new -> completed tr = List.length new.
Proof.
  induction 1; auto.
  change (processing idx total (entry_id (VDict d)) :: tr1 ++ tr)
    with ([processing idx total (entry_id (VDict d))] ++ tr1 ++ tr).
  rewrite !completed_app, length_app, IHloop_run.
  rewrite (item_run_completed H0). reflexivity.
Qed.

Lemma loop_run_fetched total idx items tr new :
  loop_run total idx items tr new -> fetched_ids tr = usable_ids items.
Proof.
  induction 1; auto.
  - unfold usable_ids in *. simpl map. simpl filter.
    fold (entry_id (VDict d)). rewrite H. assumption.
  - change (processing idx total (entry_id (VDict d)) :: tr1 ++ tr)
      with ([processing idx total (entry_id (VDict d))] ++ tr1 ++ tr).
    rewrite !fetched_ids_app, IHloop_run, (item_run_fetched H0).
    unfold usable_ids. simpl map. simpl filter.
    fold (entry_id (VDict d)). rewrite H. reflexivity.
Qed.

Lemma loop_run_requests total idx items tr new :
  loop_run total idx items tr new ->
  Forall well_formed_request (llm_requests tr)
  /\ answered_requests tr = map request_for new.
Proof.
  induction 1.
  - split; [ constructor | reflexivity ].
  - assumption.
  - destruct IHloop_run as [IH1 IH2].
    destruct (item_run_requests H0) as [I1 I2].
    change (processing idx total (entry_id (VDict d)) :: tr1 ++ tr)
      with ([processing idx total (entry_id (VDict d))] ++ tr1 ++ tr).
    rewrite !llm_requests_app, !answered_requests_app, map_app, I2, IH2.
    split; [ | reflexivity ].
    simpl. apply Forall_app. split; assumption.
Qed.



End RunFacts.

(** ** Properties of the workflow *)

Section Properties.

Variable World : Type.
Variable app : MCPApp World.

Lemma workflow_returns w max_emails label r st' :
  classify_spam_workflow app max_emails label (initial w) = (r, st') ->
  workflow_run app w max_emails label r st'.
Proof.
  intros H. pose proof (classify_spam_workflow_run app w max_emails label) as R.
  rewrite H in R. exact R.
Qed.

(** On every run that gets past the listing, the percentage is the
    rounded quotient of the two counts of the summary, and the integer 0
    when no record was made. *)
Lemma percentage_after_listing w max_emails label summary st' :
  classify_spam_workflow app max_emails label (initial w) = (inr summary, st') ->
  summary <> empty_summary ->
  field summary "spam_percentage" = Some (percentage (emails st'))
  /\ field summary "spam_count" = Some (VInt (count flagged (emails st')))
  /\ field summary "total_processed"
     = Some (VInt (Z.of_nat (List.length (emails st')))).
Proof.
  intros H Hne. apply workflow_returns in H.
  inversion H; subst; [ congruence | ].
  repeat split.
Qed.

End Properties.

(** C1 (the code departs from it).  When the listing holds no message, the
    workflow returns at once, the listing being the only call made, and the
    dictionary it returns has the counts at zero and no email; but it has four
    fields, not five: [spam_percentage] is not in it. *)
Theorem empty_listing_summary_has_no_percentage
        (World : Type) (app : MCPApp World) (w w1 : World)
        (max_emails : Z) (label : string)
        (gmail : McpServer World) (list_result messages : value) :
  servers_get (mcp_servers app) "gmail" = Some gmail ->
  call_tool gmail "gmail_list_messages"
            (VDict [("max_results", VInt max_emails);
                    ("label_ids", VList [VStr label])]) w = (inr list_result, w1) ->
  Py.get list_result "messages" (VList []) = inr messages ->
  Py.truthy messages = false ->
  exists st',
    classify_spam_workflow app max_emails label (initial w)
    = (inr (VDict [("total_processed", VInt 0);
                   ("spam_count", VInt 0);
                   ("not_spam_count", VInt 0);
                   ("emails", VList [])]), st')
    /\ field (VDict [("total_processed", VInt 0);
                     ("spam_count", VInt 0);
                     ("not_spam_count", VInt 0);
                     ("emails", VList [])]) "spam_percentage" = None
    /\ calls (trace st')
       = [ToolCall "gmail_list_messages"
                   (VDict [("max_results", VInt max_emails);
                           ("label_ids", VList [VStr label])]) (inr list_result)].
Proof.
  intros Hg Hcall Hget Ht.
  destruct (classify_spam_workflow app max_emails label (initial w)) as [r st'] eqn:Hrun.
  pose proof (workflow_returns _ _ _ _ Hrun) as R.
  inversion R; subst; try congruence.
  assert (gmail0 = gmail) by congruence. subst gmail0.
  assert (list_result0 = list_result) by congruence. subst list_result0.
  exists (mkSt w0 [start_log max_emails label; fetching_log label;
                     listing_call max_emails label (inr list_result);
                     no_emails_log] [] 0 0).
    repeat split.
Qed.

Lemma empty_listing_summary_has_no_percentage_witness :
  exists st',
    Script.run Script.app Script.empty_inbox
    = (inr (VDict [("total_processed", VInt 0);
                   ("spam_count", VInt 0);
                   ("not_spam_count", VInt 0);
                   ("emails", VList [])]), st')
    /\ field (VDict [("total_processed", VInt 0);
                     ("spam_count", VInt 0);
                     ("not_spam_count", VInt 0);
                     ("emails", VList [])]) "spam_percentage" = None
    /\ calls (trace st')
       = [ToolCall "gmail_list_messages"
                   (VDict [("max_results", VInt 20);
                           ("label_ids", VList [VStr "INBOX"])])
                   (Script.listed [])].
Proof.
  apply (@empty_listing_summary_has_no_percentage
           Script.world Script.app Script.empty_inbox Script.empty_inbox
           20 "INBOX" Script.gmail
           (VDict [("messages", VList [])]) (VList []));
    reflexivity.
Defined.

Lemma count_partition (l : list EmailInfo) :
  Forall classified l ->
  count flagged l + count cleared l = Z.of_nat (List.length l).
Proof.
  unfold count. induction 1 as [| e l He _ IH]; [ reflexivity | ].
  unfold classified in He. simpl filter. unfold flagged at 1, cleared at 1.
  destruct (classification e) as [c |]; [ | destruct He; discriminate ].
  destruct (is_spam c); cbn [negb]; cbv iota; cbn [List.length]; lia.
Qed.

(** C2.  In every summary returned, the spam and not-spam counts add up to
    [total_processed], which is the length of [emails] and the number of
    classification calls that came back with a classification: an id whose
    fetch or classification did not complete is in none of the three. *)
Theorem counts_add_up
        (World : Type) (app : MCPApp World) (w : World)
        (max_emails : Z) (label : string) (summary : value) (st' : St World) :
  classify_spam_workflow app max_emails label (initial w) = (inr summary, st') ->
  exists total spam ham es,
    field summary "total_processed" = Some (VInt total)
    /\ field summary "spam_count" = Some (VInt spam)
    /\ field summary "not_spam_count" = Some (VInt ham)
    /\ field summary "emails" = Some (VList es)
    /\ spam + ham = total
    /\ total = Z.of_nat (List.length es)
    /\ total = Z.of_nat (completed (trace st')).
Proof.
  intros Hrun. apply workflow_returns in Hrun.
  inversion Hrun; subst.
  - exists 0, 0, 0, []. repeat split.
  - exists (Z.of_nat (List.length new)), (count flagged new), (count cleared new),
           (map email_projection new).
    match goal with
    | Hloop : loop_run _ _ _ _ _, Hlogs : forallb is_info_log _ = true |- _ =>
        pose proof (loop_run_classified Hloop) as Hc;
        pose proof (loop_run_completed Hloop) as Hn;
        destruct (info_logs_silent _ Hlogs) as (_ & Hl & _)
    end.
    repeat split.
    + apply count_partition. exact Hc.
    + now rewrite length_map.
    + cbn [trace]. rewrite !completed_app, Hn, Hl.
      unfold completed. simpl. f_equal. lia.
Qed.

Lemma counts_add_up_witness :
  exists total spam ham es,
    field (Script.returned Script.second_fetch_fails) "total_processed"
    = Some (VInt total)
    /\ field (Script.returned Script.second_fetch_fails) "spam_count"
       = Some (VInt spam)
    /\ field (Script.returned Script.second_fetch_fails) "not_spam_count"
       = Some (VInt ham)
    /\ field (Script.returned Script.second_fetch_fails) "emails" = Some (VList es)
    /\ spam + ham = total
    /\ total = Z.of_nat (List.length es)
    /\ total = Z.of_nat (completed (trace (Script.final Script.second_fetch_fails))).
Proof.
  apply (@counts_add_up Script.world Script.app Script.second_fetch_fails 20 "INBOX").
  vm_compute. reflexivity.
Defined.

(** C3 (the code departs from it).  The summary returned for an empty
    listing reports [total_processed] 0 and has no [spam_percentage] at all,
    where the claim wants it to be 0. *)
Theorem empty_listing_percentage_is_missing :
  exists summary,
    fst (Script.run Script.app Script.empty_inbox) = inr summary
    /\ field summary "total_processed" = Some (VInt 0)
    /\ field summary "spam_percentage" = None.
Proof.
  eexists. repeat split.
Qed.

(** C4.  Without a configured Gmail server the workflow raises [ValueError]
    before any call is made; when the listing call raises, the workflow
    raises that same exception after that one call.  No summary is returned
    in either case. *)
Theorem setup_and_listing_failures_are_fatal
        (World : Type) (app : MCPApp World) (w : World)
        (max_emails : Z) (label : string) :
  (servers_get (mcp_servers app) "gmail" = None ->
   exists st',
     classify_spam_workflow app max_emails label (initial w)
     = (inl (ValueError "Gmail MCP server not configured"), st')
     /\ calls (trace st') = [])
  /\
  (forall gmail e w1,
     servers_get (mcp_servers app) "gmail" = Some gmail ->
     call_tool gmail "gmail_list_messages"
               (VDict [("max_results", VInt max_emails);
                       ("label_ids", VList [VStr label])]) w = (inl e, w1) ->
     exists st',
       classify_spam_workflow app max_emails label (initial w) = (inl e, st')
       /\ calls (trace st')
          = [ToolCall "gmail_list_messages"
                      (VDict [("max_results", VInt max_emails);
                              ("label_ids", VList [VStr label])]) (inl e)]).
Proof.
  split.
  - intros Hg.
    destruct (classify_spam_workflow app max_emails label (initial w))
      as [r st'] eqn:Hrun.
    pose proof (workflow_returns _ _ _ _ Hrun) as R.
    inversion R; subst; try congruence.
    eexists. split; reflexivity.
  - intros gmail e w1 Hg Hcall.
    destruct (classify_spam_workflow app max_emails label (initial w))
      as [r st'] eqn:Hrun.
    pose proof (workflow_returns _ _ _ _ Hrun) as R.
    inversion R; subst; try congruence.
    assert (gmail0 = gmail) by congruence. subst gmail0.
    assert (e0 = e) by congruence. subst e0.
    eexists. split; reflexivity.
Qed.

Lemma setup_and_listing_failures_are_fatal_witness :
  (exists st',
     Script.run Script.app_without_gmail Script.three_messages
     = (inl (ValueError "Gmail MCP server not configured"), st')
     /\ calls (trace st') = [])
  /\
  (exists st',
     Script.run Script.app Script.listing_fails
     = (inl (CollaboratorError "unauthorized"), st')
     /\ calls (trace st')
        = [ToolCall "gmail_list_messages"
                    (VDict [("max_results", VInt 20);
                            ("label_ids", VList [VStr "INBOX"])])
                    (inl (CollaboratorError "unauthorized"))]).
Proof.
  split.
  - apply (proj1 (@setup_and_listing_failures_are_fatal
                    Script.world Script.app_without_gmail Script.three_messages
                    20 "INBOX")).
    reflexivity.
  - apply (proj2 (@setup_and_listing_failures_are_fatal
                    Script.world Script.app Script.listing_fails 20 "INBOX")
                 Script.gmail (CollaboratorError "unauthorized")
                 Script.listing_fails);
      reflexivity.
Defined.

(** *** Runs in which the collaborators keep to their contracts *)

Lemma extract_well_formed s v :
  well_formed_message v = true -> exists info, extract (VStr s) v = inr info.
Proof.
  destruct v as [ | | | | | | d ]; try discriminate.
  unfold well_formed_message, text_or_absent, extract, EmailInfo_init. simpl.
  destruct (Py.lookup d "subject") as [[ | | | | t1 | | ] |]; try discriminate;
    destruct (Py.lookup d "from") as [[ | | | | t2 | | ] |]; try discriminate;
    destruct (Py.lookup d "snippet") as [[ | | | | t3 | | ] |]; try discriminate;
    intros _; eexists; reflexivity.
Qed.

Lemma well_formed_entry_id m :
  well_formed_entry m = true ->
  exists s, entry_id m = VStr s /\ Py.truthy (entry_id m) = true.
Proof.
  destruct m as [ | | | | | | d ]; try discriminate.
  unfold well_formed_entry, entry_id. simpl.
  destruct (Py.lookup d "id") as [[ | | | | s | | ] |]; try discriminate.
  intros H. exists s. split; [ reflexivity | exact H ].
Qed.

(** Under the contracts an iteration ends in one of two ways: the record is
    appended, or one call raised and the id is logged. *)
Lemma item_run_contract s tr new :
  item_run (VStr s) tr new ->
  contract_respected tr = true ->
  (exists info, new = [info] /\ email_id info = s
                /\ error_ids tr = [] /\ failed_calls tr = 0%nat)
  \/ (new = [] /\ error_ids tr = [VStr s] /\ failed_calls tr = 1%nat).
Proof.
  intros Hrun Hc. inversion Hrun; subst.
  - right. repeat split.
  - simpl in Hc. rewrite andb_true_r in Hc.
    destruct (extract_well_formed s v Hc) as (info & Hx). congruence.
  - right. repeat split.
  - simpl in Hc. rewrite andb_false_r in Hc. discriminate.
  - left. eexists. repeat split.
    simpl. apply extract_id in H. congruence.
Qed.

Lemma loop_run_contract total idx items tr new :
  loop_run total idx items tr new ->
  forallb well_formed_entry items = true ->
  contract_respected tr = true ->
  Permutation (map (fun e => VStr (email_id e)) new ++ error_ids tr)
              (map entry_id items)
  /\ List.length (error_ids tr) = failed_calls tr
  /\ (List.length new + failed_calls tr = List.length items)%nat.
Proof.
  induction 1 as [ idx | idx d rest tr new Hid Hloop IH
                 | idx d rest tr1 new1 tr new Hid Hitem Hloop IH ];
    intros Hwf Hc.
  - repeat split. constructor.
  - cbn [forallb] in Hwf. apply andb_prop in Hwf. destruct Hwf as [Hd _].
    destruct (well_formed_entry_id _ Hd) as (s & _ & Ht). congruence.
  - cbn [forallb] in Hwf. apply andb_prop in Hwf. destruct Hwf as [Hd Hrest].
    destruct (well_formed_entry_id _ Hd) as (s & Hs & _).
    change (processing idx total (entry_id (VDict d)) :: tr1 ++ tr)
      with ([processing idx total (entry_id (VDict d))] ++ tr1 ++ tr) in *.
    unfold contract_respected in Hc. rewrite !forallb_app in Hc.
    apply andb_prop in Hc. destruct Hc as [_ Hc].
    apply andb_prop in Hc. destruct Hc as [Hc1 Hc2].
    destruct (IH Hrest Hc2) as (IHp & IHe & IHn).
    rewrite !error_ids_app, !failed_calls_app, !length_app, map_app.
    cbn [map]. rewrite Hs in *.
    destruct (item_run_contract Hitem Hc1)
      as [(info & -> & Hinfo & -> & ->) | (-> & -> & ->)];
      cbn [map app List.length error_ids flat_map error_id processing
           failed_calls filter is_failed_call].
    + rewrite Hinfo. repeat split; [ now apply perm_skip | exact IHe | lia ].
    + repeat split; [ | now rewrite IHe | lia ].
      apply Permutation_sym, Permutation_cons_app, Permutation_sym. exact IHp.
Qed.

Lemma NoDup_app_disjoint (A : Type) (l1 l2 : list A) :
  NoDup (l1 ++ l2) -> forall x, In x l2 -> ~ In x l1.
Proof.
  induction l1 as [| a l1 IH]; simpl; intros Hnd x H2 H1; [ exact H1 | ].
  inversion Hnd as [| ? ? Hnotin Hnd']; subst.
  destruct H1 as [-> | H1].
  - apply Hnotin, in_or_app. now right.
  - exact (IH Hnd' x H2 H1).
Qed.

Lemma map_projected_id (l : list EmailInfo) :
  map projected_id (map email_projection l) = map (fun e => VStr (email_id e)) l.
Proof. rewrite map_map. reflexivity. Qed.

(** C5.  When the listing answers well-formed entries and the collaborators
    answer as their contracts say whenever they answer, a run in which some
    fetches or classifications raise still returns a summary:
    [total_processed] is the number of listed entries minus the number of
    calls that raised, the counts add up to it, the ids of [emails] together
    with the ids logged as failed are the listed ids, and a failed id is not in
    [emails] (ids being distinct). *)
Theorem per_message_failures_are_skipped
        (World : Type) (app : MCPApp World) (w w1 : World)
        (max_emails : Z) (label : string)
        (gmail : McpServer World) (list_result : value) (entries : list value)
        (r : result value) (st' : St World) :
  servers_get (mcp_servers app) "gmail" = Some gmail ->
  call_tool gmail "gmail_list_messages"
            (VDict [("max_results", VInt max_emails);
                    ("label_ids", VList [VStr label])]) w = (inr list_result, w1) ->
  Py.get list_result "messages" (VList []) = inr (VList entries) ->
  forallb well_formed_entry entries = true ->
  classify_spam_workflow app max_emails label (initial w) = (r, st') ->
  contract_respected (trace st') = true ->
  exists summary total spam ham es,
    r = inr summary
    /\ field summary "total_processed" = Some (VInt total)
    /\ field summary "spam_count" = Some (VInt spam)
    /\ field summary "not_spam_count" = Some (VInt ham)
    /\ field summary "emails" = Some (VList es)
    /\ total = Z.of_nat (List.length entries) - Z.of_nat (failed_calls (trace st'))
    /\ spam + ham = total
    /\ Z.of_nat (List.length es) = total
    /\ List.length (error_ids (trace st')) = failed_calls (trace st')
    /\ Permutation (map projected_id es ++ error_ids (trace st'))
                   (map entry_id entries)
    /\ (NoDup (map entry_id entries) ->
        forall id, In id (error_ids (trace st')) -> ~ In id (map projected_id es)).
Proof.
  intros Hg Hcall Hget Hwf Hrun Hc.
  apply workflow_returns in Hrun.
  inversion Hrun; subst; try congruence.
  - (* the listing was empty *)
    assert (gmail0 = gmail) by congruence. subst gmail0.
    assert (list_result0 = list_result) by congruence. subst list_result0.
    assert (messages0 = VList entries) by congruence. subst messages0.
    destruct entries; [ | discriminate ].
    exists empty_summary, 0, 0, 0, [].
    repeat split; try constructor. intros _ id [].
  - (* a list always has a length *)
    assert (gmail0 = gmail) by congruence. subst gmail0.
    assert (list_result0 = list_result) by congruence. subst list_result0.
    assert (messages0 = VList entries) by congruence. subst messages0.
    discriminate.
  - (* an entry that is not a dict: excluded by [Hwf] *)
    assert (gmail0 = gmail) by congruence. subst gmail0.
    assert (list_result0 = list_result) by congruence. subst list_result0.
    assert (messages0 = VList entries) by congruence. subst messages0.
    match goal with
    | Hit : Py.iter _ = inr _ |- _ => simpl in Hit; inversion Hit; subst
    end.
    rewrite forallb_app in Hwf. apply andb_prop in Hwf. destruct Hwf as [_ Hwf].
    simpl in Hwf. apply andb_prop in Hwf. destruct Hwf as [Hbad _].
    destruct bad; discriminate.
  - assert (gmail0 = gmail) by congruence. subst gmail0.
    assert (list_result0 = list_result) by congruence. subst list_result0.
    assert (messages0 = VList entries) by congruence. subst messages0.
    match goal with
    | Hit : Py.iter _ = inr _ |- _ => simpl in Hit; inversion Hit; subst
    end.
    match goal with
    | Hloop : loop_run _ _ _ _ _, Hlogs : forallb is_info_log _ = true |- _ =>
        pose proof (loop_run_classified Hloop) as Hcl;
        destruct (info_logs_silent _ Hlogs)
          as (_ & _ & Hlf & Hle & _ & _ & _ & _);
        cbn [trace] in Hc; unfold contract_respected in Hc;
        rewrite !forallb_app in Hc;
        apply andb_prop in Hc; destruct Hc as [_ Hc];
        apply andb_prop in Hc; destruct Hc as [Hc _];
        destruct (loop_run_contract Hloop Hwf Hc) as (Hp & He & Hn)
    end.
    assert (Herr : error_ids (trace
              (mkSt w2 ([start_log max_emails label; fetching_log label;
                         listing_call max_emails label (inr list_result);
                         found_log total] ++ tr ++ logs)
                    new (count flagged new) (count cleared new)))
            = error_ids tr).
    { cbn [trace]. rewrite !error_ids_app, Hle, app_nil_r. reflexivity. }
    assert (Hfail : failed_calls (trace
              (mkSt w2 ([start_log max_emails label; fetching_log label;
                         listing_call max_emails label (inr list_result);
                         found_log total] ++ tr ++ logs)
                    new (count flagged new) (count cleared new)))
            = failed_calls tr).
    { cbn [trace]. rewrite !failed_calls_app, Hlf. unfold failed_calls at 1.
      simpl. lia. }
    rewrite Herr, Hfail.
    exists (summary_of new), (Z.of_nat (List.length new)), (count flagged new),
           (count cleared new), (map email_projection new).
    rewrite map_projected_id.
    repeat split.
    + lia.
    + apply count_partition. exact Hcl.
    + now rewrite length_map.
    + exact He.
    + exact Hp.
    + intros Hnd id Hin.
      apply (NoDup_app_disjoint (map (fun e => VStr (email_id e)) new) (error_ids tr));
        [ | exact Hin ].
      eapply Permutation_NoDup; [ apply Permutation_sym; exact Hp | exact Hnd ].
Qed.

Lemma per_message_failures_are_skipped_witness :
  exists summary total spam ham es,
    fst (Script.run Script.app Script.mixed_failures) = inr summary
    /\ field summary "total_processed" = Some (VInt total)
    /\ field summary "spam_count" = Some (VInt spam)
    /\ field summary "not_spam_count" = Some (VInt ham)
    /\ field summary "emails" = Some (VList es)
    /\ total = Z.of_nat (List.length [Script.entry "m1"; Script.entry "m2";
                                      Script.entry "m3"; Script.entry "m4"])
               - Z.of_nat (failed_calls (trace (Script.final Script.mixed_failures)))
    /\ spam + ham = total
    /\ Z.of_nat (List.length es) = total
    /\ List.length (error_ids (trace (Script.final Script.mixed_failures)))
       = failed_calls (trace (Script.final Script.mixed_failures))
    /\ Permutation
         (map projected_id es
              ++ error_ids (trace (Script.final Script.mixed_failures)))
         (map entry_id [Script.entry "m1"; Script.entry "m2";
                        Script.entry "m3"; Script.entry "m4"])
    /\ (NoDup (map entry_id [Script.entry "m1"; Script.entry "m2";
                             Script.entry "m3"; Script.entry "m4"]) ->
        forall id,
          In id (error_ids (trace (Script.final Script.mixed_failures))) ->
          ~ In id (map projected_id es)).
Proof.
  apply (@per_message_failures_are_skipped
           Script.world Script.app Script.mixed_failures Script.mixed_failures
           20 "INBOX" Script.gmail
           (VDict [("messages",
                    VList [Script.entry "m1"; Script.entry "m2";
                           Script.entry "m3"; Script.entry "m4"])])
           [Script.entry "m1"; Script.entry "m2"; Script.entry "m3"; Script.entry "m4"]);
    vm_compute; reflexivity.
Defined.

(** The run with two failures out of four listed messages keeps the two
    others, in listing order. *)
Example mixed_failures_summary :
  field (Script.returned Script.mixed_failures) "total_processed" = Some (VInt 2)
  /\ failed_calls (trace (Script.final Script.mixed_failures)) = 2%nat
  /\ error_ids (trace (Script.final Script.mixed_failures)) = [VStr "m2"; VStr "m3"]
  /\ match field (Script.returned Script.mixed_failures) "emails" with
     | Some (VList es) => map projected_id es = [VStr "m1"; VStr "m4"]
     | _ => False
     end.
Proof. vm_compute. repeat split. Qed.

(** The scenario of the specification: three listed messages, two classified
    as spam, give 66.7 percent. *)
Example three_messages_summary :
  field (Script.returned Script.three_messages) "total_processed" = Some (VInt 3)
  /\ field (Script.returned Script.three_messages) "spam_count" = Some (VInt 2)
  /\ field (Script.returned Script.three_messages) "not_spam_count" = Some (VInt 1)
  /\ field (Script.returned Script.three_messages) "spam_percentage"
     = Some (VFloat (PyFloat.decimal 667 1)).
Proof. vm_compute. repeat split. Qed.

(** When every message fails, the summary reports nothing processed and
    the integer 0 as percentage. *)
Example all_fail_summary :
  field (Script.returned Script.all_fail) "total_processed" = Some (VInt 0)
  /\ field (Script.returned Script.all_fail) "spam_percentage" = Some (VInt 0)
  /\ field (Script.returned Script.all_fail) "emails" = Some (VList []).
Proof. vm_compute. repeat split. Qed.

(** C6.  When a fetched message lacks [subject], [from] or [snippet] (each
    is a string or absent), the record takes ["(no subject)"], ["unknown"] and
    [""] in their place, the prompt is built from these, and once classified
    the record is appended and counted like any other. *)
Theorem missing_fields_take_defaults
        (World : Type) (app : MCPApp World) (gmail : McpServer World)
        (s : string) (st : St World) (d : list (string * value)) (w1 w2 : World)
        (c : EmailClassification) (osubject ofrom osnippet : option string) :
  call_tool gmail "gmail_get_message" (VDict [("message_id", VStr s)]) (world st)
  = (inr (VDict d), w1) ->
  Py.lookup d "subject" = option_map VStr osubject ->
  Py.lookup d "from" = option_map VStr ofrom ->
  Py.lookup d "snippet" = option_map VStr osnippet ->
  run (llm app)
      (request_for (mkEmailInfo s (or_default "(no subject)" osubject)
                                (or_default "unknown" ofrom)
                                (or_default "" osnippet) None)) w1
  = (inr (Some c), w2) ->
  exists st',
    classify_email app gmail (VStr s) st = (inr tt, st')
    /\ emails st'
       = emails st ++ [mkEmailInfo s (or_default "(no subject)" osubject)
                                   (or_default "unknown" ofrom)
                                   (or_default "" osnippet) (Some c)]
    /\ spam_count st' + not_spam_count st'
       = spam_count st + not_spam_count st + 1
    /\ llm_requests (trace st')
       = llm_requests (trace st)
         ++ [request_for (mkEmailInfo s (or_default "(no subject)" osubject)
                                      (or_default "unknown" ofrom)
                                      (or_default "" osnippet) None)].
Proof.
  intros Hcall Hs Hf Hp Hrun.
  unfold classify_email, try_except, bind, gmail_call_tool, lift.
  rewrite Hcall. simpl. rewrite Hs, Hf, Hp.
  unfold request_for in Hrun. simpl in Hrun.
  destruct osubject, ofrom, osnippet; simpl in *;
    unfold llm_run; simpl; rewrite Hrun; simpl;
    destruct (is_spam c); simpl; eexists;
    (split; [ reflexivity | ]); simpl;
    (split; [ reflexivity | ]);
    (split; [ lia | ]);
    rewrite <- !app_assoc; rewrite !llm_requests_app; simpl;
    rewrite ?app_nil_r; reflexivity.
Qed.

Lemma missing_fields_take_defaults_witness :
  exists st',
    classify_email Script.app Script.gmail (VStr "m1") (initial Script.bare_message)
    = (inr tt, st')
    /\ emails st'
       = emails (initial Script.bare_message)
         ++ [mkEmailInfo "m1" "(no subject)" "unknown" ""
               (Some (mkEmailClassification false (PyFloat.decimal 5 1)
                        (mkSpamType "other") "because" "keep"))]
    /\ spam_count st' + not_spam_count st'
       = spam_count (initial Script.bare_message)
         + not_spam_count (initial Script.bare_message) + 1
    /\ llm_requests (trace st')
       = llm_requests (trace (initial Script.bare_message))
         ++ [request_for (mkEmailInfo "m1" "(no subject)" "unknown" "" None)].
Proof.
  apply (@missing_fields_take_defaults
           Script.world Script.app Script.gmail "m1"
           (initial Script.bare_message) [] Script.bare_message
           (Script.mkWorld (Script.listing Script.bare_message)
                           (Script.mailbox Script.bare_message) [])
           (mkEmailClassification false (PyFloat.decimal 5 1)
              (mkSpamType "other") "because" "keep")
           None None None);
    reflexivity.
Defined.

Lemma append_assoc (a b c : string) :
  ((a ++ b) ++ c)%string = (a ++ b ++ c)%string.
Proof. induction a as [| x a IH]; simpl; [ reflexivity | now rewrite IH ]. Qed.

(** The prompt of the code is the template of the specification between
    two line feeds. *)
Lemma classification_prompt_template (from_address subject snippet : string) :
  classification_prompt from_address subject snippet
  = (LF ++ spec_prompt_template from_address subject snippet ++ LF)%string.
Proof.
  unfold classification_prompt, spec_prompt_template.
  repeat rewrite append_assoc. reflexivity.
Qed.

Lemma extracted_app tr1 tr2 : extracted (tr1 ++ tr2) = extracted tr1 ++ extracted tr2.
Proof. apply flat_map_app. Qed.

Lemma info_logs_extract_nothing logs :
  forallb is_info_log logs = true -> extracted logs = [].
Proof.
  induction logs as [| ev logs IH]; simpl; intros H; [ reflexivity | ].
  apply andb_prop in H. destruct H as [Hev Hlogs].
  destruct ev as [ | | [ | ] msg ]; try discriminate.
  unfold extracted in *. simpl. exact (IH Hlogs).
Qed.

(** In one iteration a request goes to the model exactly when the fetch
    returned and the record was built, and then once. *)
Lemma item_run_one_request id tr new :
  item_run id tr new -> llm_requests tr = map request_for (extracted tr).
Proof.
  destruct 1; unfold extracted; simpl; rewrite ?H; reflexivity.
Qed.

Lemma loop_run_one_request total idx items tr new :
  loop_run total idx items tr new ->
  llm_requests tr = map request_for (extracted tr).
Proof.
  induction 1 as [ idx | idx d rest tr new Hid Hloop IH
                 | idx d rest tr1 new1 tr new Hid Hitem Hloop IH ].
  - reflexivity.
  - exact IH.
  - change (processing idx total (entry_id (VDict d)) :: tr1 ++ tr)
      with ([processing idx total (entry_id (VDict d))] ++ tr1 ++ tr).
    rewrite !llm_requests_app, !extracted_app, !map_app, IH,
      (item_run_one_request Hitem).
    reflexivity.
Qed.

(** The requests of any run, whatever its outcome. *)
Lemma requests_of_any_run
      (World : Type) (app : MCPApp World) (w : World)
      (max_emails : Z) (label : string) :
  Forall well_formed_request
         (llm_requests
            (trace (snd (classify_spam_workflow app max_emails label (initial w)))))
  /\ llm_requests
       (trace (snd (classify_spam_workflow app max_emails label (initial w))))
     = map request_for
           (extracted
              (trace (snd (classify_spam_workflow app max_emails label (initial w)))))
  /\ answered_requests
       (trace (snd (classify_spam_workflow app max_emails label (initial w))))
     = map request_for
           (emails (snd (classify_spam_workflow app max_emails label (initial w)))).
Proof.
  pose proof (classify_spam_workflow_run app w max_emails label) as R.
  destruct (classify_spam_workflow app max_emails label (initial w)) as [r st'].
  cbn [fst snd] in *.
  inversion R; subst; cbn [trace emails];
    try (repeat split; constructor).
  - match goal with
    | Hloop : loop_run _ _ _ _ _ |- _ =>
        destruct (loop_run_requests Hloop) as [Hshape Hans];
        pose proof (loop_run_one_request Hloop) as Hone
    end.
    rewrite !llm_requests_app, !answered_requests_app, !extracted_app.
    repeat split; assumption.
  - match goal with
    | Hloop : loop_run _ _ _ _ _, Hlogs : forallb is_info_log _ = true |- _ =>
        destruct (loop_run_requests Hloop) as [Hshape Hans];
        pose proof (loop_run_one_request Hloop) as Hone;
        destruct (info_logs_silent _ Hlogs)
          as (_ & _ & _ & _ & _ & Hlr & Hla & _);
        pose proof (info_logs_extract_nothing _ Hlogs) as Hlx
    end.
    rewrite !llm_requests_app, !answered_requests_app, !extracted_app,
      Hlr, Hla, Hlx, !app_nil_r.
    repeat split; assumption.
Qed.

(** C7.  In a run on a listing of entries: every request submitted to the
    model is a single user message whose content is the prompt built from a
    sender, a subject and a snippet, with the [EmailClassification] schema and
    the temperature 0.1; the requests are, one for one and in order, those of
    the messages whose fetch returned and whose record was built, no message
    getting a second request and none being left out; the requests that came
    back with a classification are, one for one and in order, those of the
    records appended; when a summary is returned, every listed usable id was
    fetched and the records appended are the entries of the summary; and the
    prompt is the template of the specification between two line feeds. *)
Theorem every_request_follows_the_template
        (World : Type) (app : MCPApp World) (w w1 : World)
        (max_emails : Z) (label : string)
        (gmail : McpServer World) (list_result : value) (entries : list value) :
  servers_get (mcp_servers app) "gmail" = Some gmail ->
  call_tool gmail "gmail_list_messages"
            (VDict [("max_results", VInt max_emails);
                    ("label_ids", VList [VStr label])]) w = (inr list_result, w1) ->
  Py.get list_result "messages" (VList []) = inr (VList entries) ->
  Forall well_formed_request
         (llm_requests
            (trace (snd (classify_spam_workflow app max_emails label (initial w)))))
  /\ llm_requests
       (trace (snd (classify_spam_workflow app max_emails label (initial w))))
     = map request_for
           (extracted
              (trace (snd (classify_spam_workflow app max_emails label (initial w)))))
  /\ answered_requests
       (trace (snd (classify_spam_workflow app max_emails label (initial w))))
     = map request_for
           (emails (snd (classify_spam_workflow app max_emails label (initial w))))
  /\ match fst (classify_spam_workflow app max_emails label (initial w)) with
     | inr summary =>
         field summary "emails"
         = Some (VList (map email_projection
                   (emails (snd (classify_spam_workflow app max_emails label
                                                        (initial w))))))
         /\ fetched_ids
              (trace (snd (classify_spam_workflow app max_emails label (initial w))))
            = usable_ids entries
     | inl _ => True
     end
  /\ forall from_address subject snippet,
       classification_prompt from_address subject snippet
       = (LF ++ spec_prompt_template from_address subject snippet ++ LF)%string.
Proof.
  intros Hg Hcall Hget.
  destruct (requests_of_any_run app w max_emails label) as (Hshape & Hone & Hans).
  split; [ exact Hshape | ]. split; [ exact Hone | ]. split; [ exact Hans | ].
  split; [ | apply classification_prompt_template ].
  destruct (classify_spam_workflow app max_emails label (initial w)) as [r st'] eqn:Hrun.
  cbn [fst snd]. destruct r as [e | summary]; [ exact I | ].
  apply workflow_returns in Hrun.
  inversion Hrun; subst.
  - assert (gmail0 = gmail) by congruence. subst gmail0.
    assert (list_result0 = list_result) by congruence. subst list_result0.
    assert (messages0 = VList entries) by congruence. subst messages0.
    destruct entries; [ | discriminate ].
    split; reflexivity.
  - assert (gmail0 = gmail) by congruence. subst gmail0.
    assert (list_result0 = list_result) by congruence. subst list_result0.
    assert (messages0 = VList entries) by congruence. subst messages0.
    match goal with
    | Hit : Py.iter _ = inr _ |- _ => simpl in Hit; inversion Hit; subst
    end.
    match goal with
    | Hloop : loop_run _ _ _ _ _, Hlogs : forallb is_info_log _ = true |- _ =>
        pose proof (loop_run_fetched Hloop) as Hfetch;
        destruct (info_logs_silent _ Hlogs)
          as (_ & _ & _ & _ & Hlf & _ & _ & _)
    end.
    split; [ reflexivity | ].
    cbn [trace]. rewrite !fetched_ids_app, Hlf, app_nil_r. exact Hfetch.
Qed.

(** Four listed messages: the second is not fetched, so three requests go
    out, one for each of the others; the request for the third raises, so two
    come back and two records are appended. *)
Lemma every_request_follows_the_template_witness :
  (Forall well_formed_request
          (llm_requests (trace (Script.final Script.mixed_failures)))
   /\ llm_requests (trace (Script.final Script.mixed_failures))
      = map request_for (extracted (trace (Script.final Script.mixed_failures)))
   /\ answered_requests (trace (Script.final Script.mixed_failures))
      = map request_for (emails (Script.final Script.mixed_failures))
   /\ match fst (Script.run Script.app Script.mixed_failures) with
      | inr summary =>
          field summary "emails"
          = Some (VList (map email_projection
                           (emails (Script.final Script.mixed_failures))))
          /\ fetched_ids (trace (Script.final Script.mixed_failures))
             = usable_ids [Script.entry "m1"; Script.entry "m2";
                           Script.entry "m3"; Script.entry "m4"]
      | inl _ => True
      end
   /\ forall from_address subject snippet,
        classification_prompt from_address subject snippet
        = (LF ++ spec_prompt_template from_address subject snippet ++ LF)%string)
  /\ List.length (llm_requests (trace (Script.final Script.mixed_failures))) = 3%nat
  /\ List.length (emails (Script.final Script.mixed_failures)) = 2%nat.
Proof.
  split.
  - apply (@every_request_follows_the_template
             Script.world Script.app Script.mixed_failures Script.mixed_failures
             20 "INBOX" Script.gmail
             (VDict [("messages",
                      VList [Script.entry "m1"; Script.entry "m2";
                             Script.entry "m3"; Script.entry "m4"])])
             [Script.entry "m1"; Script.entry "m2"; Script.entry "m3";
              Script.entry "m4"]);
      reflexivity.
  - split; vm_compute; reflexivity.
Defined.

(** C8.  An entry whose id is missing, empty or null leaves the state
    untouched (no fetch, no classification, no count, no record), and the loop
    goes on with the next entry and the next number. *)
Theorem entries_without_id_are_skipped
        (World : Type) (app : MCPApp World) (gmail : McpServer World)
        (messages : value) (idx : nat) (d : list (string * value))
        (rest : list value) (st : St World) :
  Py.lookup d "id" = None \/ Py.lookup d "id" = Some (VStr "")
  \/ Py.lookup d "id" = Some VNone ->
  process_message app gmail messages idx (VDict d) st = (inr tt, st)
  /\ for_each (Py.enumerate (VDict d :: rest) idx)
              (fun im => process_message app gmail messages (fst im) (snd im)) st
     = for_each (Py.enumerate rest (S idx))
                (fun im => process_message app gmail messages (fst im) (snd im)) st.
Proof.
  intros Hid.
  assert (Hskip : process_message app gmail messages idx (VDict d) st = (inr tt, st)).
  { apply process_message_skip. unfold entry_id. simpl.
    destruct Hid as [-> | [-> | ->]]; reflexivity. }
  split; [ exact Hskip | ].
  simpl. unfold bind at 1. simpl. rewrite Hskip. reflexivity.
Qed.

Lemma entries_without_id_are_skipped_witness :
  (process_message Script.app Script.gmail
                   (VList [VDict []; Script.entry "m1"; Script.entry ""]) 1
                   (VDict []) (initial Script.bare_message)
   = (inr tt, initial Script.bare_message)
   /\ for_each (Py.enumerate (VDict [] :: [Script.entry "m1"; Script.entry ""]) 1)
               (fun im => process_message Script.app Script.gmail
                            (VList [VDict []; Script.entry "m1"; Script.entry ""])
                            (fst im) (snd im))
               (initial Script.bare_message)
      = for_each (Py.enumerate [Script.entry "m1"; Script.entry ""] 2)
                 (fun im => process_message Script.app Script.gmail
                              (VList [VDict []; Script.entry "m1"; Script.entry ""])
                              (fst im) (snd im))
                 (initial Script.bare_message))
  /\ process_message Script.app Script.gmail
                     (VList [VDict []; Script.entry "m1"; Script.entry ""]) 3
                     (Script.entry "") (initial Script.bare_message)
     = (inr tt, initial Script.bare_message).
Proof.
  split.
  - apply (@entries_without_id_are_skipped
             Script.world Script.app Script.gmail
             (VList [VDict []; Script.entry "m1"; Script.entry ""]) 1 []
             [Script.entry "m1"; Script.entry ""] (initial Script.bare_message)).
    left. reflexivity.
  - apply (proj1 (@entries_without_id_are_skipped
                    Script.world Script.app Script.gmail
                    (VList [VDict []; Script.entry "m1"; Script.entry ""]) 3
                    [("id", VStr "")] [] (initial Script.bare_message)
                    (or_intror (or_introl eq_refl)))).
Defined.



Lemma projection_fully_classified (l : list EmailInfo) :
  Forall classified l -> Forall fully_classified (map email_projection l).
Proof.
  induction 1 as [| e l [c Hc] _ IH]; simpl; constructor; [ | exact IH ].
  unfold fully_classified, email_projection. simpl. rewrite Hc.
  do 5 eexists. repeat split.
Qed.

(** C10.  In every run, every record of [emails] carries a classification;
    so each entry of a returned summary has a boolean [is_spam], a float
    [confidence] and strings for [spam_type], [reasoning] and
    [recommended_action], never the null of the fallback branches. *)
Theorem every_record_is_classified
        (World : Type) (app : MCPApp World) (w : World)
        (max_emails : Z) (label : string) :
  Forall classified
         (emails (snd (classify_spam_workflow app max_emails label (initial w))))
  /\ match fst (classify_spam_workflow app max_emails label (initial w)) with
     | inr summary =>
         exists es,
           field summary "emails" = Some (VList es)
           /\ Forall fully_classified es
     | inl _ => True
     end.
Proof.
  pose proof (classify_spam_workflow_run app w max_emails label) as R.
  destruct (classify_spam_workflow app max_emails label (initial w)) as [r st'].
  cbn [fst snd] in *.
  inversion R; subst; cbn [emails];
    try (split; [ constructor | exact I ]).
  - split; [ constructor | ]. exists []. split; [ reflexivity | constructor ].
  - split; [ | exact I ]. eapply loop_run_classified; eassumption.
  - match goal with
    | Hloop : loop_run _ _ _ _ _ |- _ =>
        pose proof (loop_run_classified Hloop) as Hc
    end.
    split; [ exact Hc | ].
    exists (map email_projection new). split; [ reflexivity | ].
    apply projection_fully_classified. exact Hc.
Qed.

(** ** The report logged at the end, record by record *)

Section Report.

Variable World : Type.
Variable app : MCPApp World.

Ltac same_state :=
  apply St_eq;
  [ reflexivity
  | rewrite <- ?app_assoc; simpl; reflexivity
  | now rewrite ?app_nil_r
  | unfold count; simpl; lia
  | unfold count; simpl; lia ].

Lemma log_email_exact (email : EmailInfo) (st : St World) :
  log_email (email_projection email) st
  = (inr tt, extend st (world st) (email_block email) []).
Proof.
  unfold log_email, email_projection, email_block, flagged, bind, lift,
    logger_info, emit, extend.
  simpl.
  destruct (classification email) as [c |]; simpl.
  - destruct (is_spam c); simpl; f_equal; same_state.
  - f_equal; same_state.
Qed.

Lemma log_emails_exact (l : list EmailInfo) :
  forall st : St World,
    for_each (map email_projection l) (@log_email World) st
    = (inr tt, extend st (world st) (flat_map email_block l) []).
Proof.
  induction l as [| email rest IH]; intros st.
  - simpl. unfold ret. now rewrite extend_refl.
  - simpl. unfold bind. rewrite log_email_exact, IH, extend_extend. reflexivity.
Qed.

Lemma log_summary_exact (new : list EmailInfo) (st : St World) :
  log_summary (summary_of new) st
  = (inr tt, extend st (world st) (summary_logs new) []).
Proof.
  unfold log_summary, summary_of, summary_logs, banner, bind, lift,
    logger_info, emit.
  simpl.
  rewrite log_emails_exact.
  f_equal. unfold extend. simpl. same_state.
Qed.

(** A run that gets past the listing with dict entries only: its value, its
    state and its trace, the report included. *)
Lemma workflow_past_listing (w w1 : World) (max_emails : Z) (label : string)
      (gmail : McpServer World) (list_result messages : value)
      (total : nat) (items : list value) :
  servers_get (mcp_servers app) "gmail" = Some gmail ->
  call_tool gmail "gmail_list_messages"
            (VDict [("max_results", VInt max_emails);
                    ("label_ids", VList [VStr label])]) w = (inr list_result, w1) ->
  Py.get list_result "messages" (VList []) = inr messages ->
  Py.truthy messages = true ->
  Py.len messages = inr total ->
  Py.iter messages = inr items ->
  forallb is_dict items = true ->
  exists w2 tr new,
    classify_spam_workflow app max_emails label (initial w)
    = (inr (summary_of new),
       mkSt w2 ([start_log max_emails label; fetching_log label;
                 listing_call max_emails label (inr list_result);
                 found_log total] ++ tr ++ summary_logs new)
            new (count flagged new) (count cleared new))
    /\ loop_run total 1 items tr new.
Proof.
  intros Hg Hcall Hget Ht Hlen Hiter Hd.
  unfold classify_spam_workflow, bind, logger_info, emit, initial. simpl.
  rewrite Hg.
  unfold list_emails, try_except, bind, gmail_call_tool. simpl.
  rewrite Hcall. unfold lift. rewrite Hget, Ht. simpl. rewrite Hlen. simpl.
  unfold classify_all, bind, lift. rewrite Hiter.
  match goal with
  | |- context [for_each _ _ ?s] =>
      destruct (for_each_run app gmail messages items Hlen Hd 1%nat s)
        as (w2 & tr & new & Heq & Hloop)
  end.
  unfold loop_body in Heq. rewrite Heq.
  unfold prepare_results, extend. simpl.
  rewrite spam_percentage_value.
  fold (summary_of new).
  rewrite log_summary_exact.
  exists w2, tr, new. split; [ | exact Hloop ].
  unfold ret, extend. simpl. f_equal.
  apply St_eq; rewrite <- ?app_assoc, ?app_nil_r; auto; unfold count; simpl; lia.
Qed.

End Report.

(** ** More facts about the events of one iteration and of the loop *)


(** Every id that enters the [try] ends up in exactly one place: the
    record appended or the error logged. *)
Lemma item_run_accounted id tr new :
  item_run id tr new ->
  map (fun e => VStr (email_id e)) new ++ error_ids tr = [id].
Proof.
  destruct 1; try reflexivity.
  simpl. apply extract_id in H. now rewrite <- H.
Qed.

Lemma item_run_quiet id tr new :
  item_run id tr new ->
  processing_records tr = [] /\ logged_subjects tr = []
  /\ logged_spam_types tr = [] /\ forallb is_read_only tr = true
  /\ filter is_listing tr = [].
Proof. destruct 1; repeat split. Qed.

Lemma item_run_at_most_one id tr new :
  item_run id tr new -> (List.length new <= 1)%nat.
Proof. destruct 1; simpl; lia. Qed.

Lemma item_run_requests_bound id tr new :
  item_run id tr new -> (List.length (llm_requests tr) <= 1)%nat.
Proof. destruct 1; simpl; lia. Qed.

Lemma loop_run_dicts total idx items tr new :
  loop_run total idx items tr new -> forallb is_dict items = true.
Proof. induction 1; simpl; auto. Qed.

Lemma loop_run_accounted total idx items tr new :
  loop_run total idx items tr new ->
  Permutation (map (fun e => VStr (email_id e)) new ++ error_ids tr)
              (usable_ids items).
Proof.
  induction 1 as [ idx | idx d rest tr new Hid Hloop IH
                 | idx d rest tr1 new1 tr new Hid Hitem Hloop IH ].
  - constructor.
  - unfold usable_ids in *. cbn [map filter]. rewrite Hid. exact IH.
  - unfold usable_ids in *. cbn [map filter]. rewrite Hid.
    change (processing idx total (entry_id (VDict d)) :: tr1 ++ tr)
      with ([processing idx total (entry_id (VDict d))] ++ tr1 ++ tr).
    rewrite !error_ids_app, map_app.
    change (error_ids [processing idx total (entry_id (VDict d))]) with (@nil value).
    cbn [app].
    pose proof (item_run_accounted Hitem) as Hacc.
    set (ids1 := map (fun e => VStr (email_id e)) new1) in *.
    set (ids := map (fun e => VStr (email_id e)) new) in *.
    apply Permutation_trans with ((ids1 ++ error_ids tr1) ++ (ids ++ error_ids tr)).
    + rewrite <- !app_assoc. apply Permutation_app_head.
      rewrite !app_assoc. apply Permutation_app_tail. apply Permutation_app_comm.
    + rewrite Hacc. cbn [app]. now apply perm_skip.
Qed.

Lemma loop_run_numbered total idx items tr new :
  loop_run total idx items tr new ->
  processing_records tr = numbered idx total items.
Proof.
  induction 1 as [ idx | idx d rest tr new Hid Hloop IH
                 | idx d rest tr1 new1 tr new Hid Hitem Hloop IH ].
  - reflexivity.
  - cbn [numbered]. rewrite Hid. exact IH.
  - cbn [numbered]. rewrite Hid.
    change (processing idx total (entry_id (VDict d)) :: tr1 ++ tr)
      with ([processing idx total (entry_id (VDict d))] ++ tr1 ++ tr).
    unfold processing_records in *. rewrite !flat_map_app, IH.
    destruct (item_run_quiet Hitem) as (Hq & _).
    unfold processing_records in Hq. rewrite Hq. reflexivity.
Qed.

Lemma loop_run_quiet total idx items tr new :
  loop_run total idx items tr new ->
  logged_subjects tr = [] /\ logged_spam_types tr = []
  /\ forallb is_read_only tr = true /\ filter is_listing tr = [].
Proof.
  induction 1 as [ idx | idx d rest tr new Hid Hloop IH
                 | idx d rest tr1 new1 tr new Hid Hitem Hloop IH ].
  - repeat split.
  - exact IH.
  - destruct IH as (I1 & I2 & I3 & I4).
    destruct (item_run_quiet Hitem) as (_ & Q1 & Q2 & Q3 & Q4).
    change (processing idx total (entry_id (VDict d)) :: tr1 ++ tr)
      with ([processing idx total (entry_id (VDict d))] ++ tr1 ++ tr).
    unfold logged_subjects, logged_spam_types in *.
    rewrite !flat_map_app, !forallb_app, !filter_app, I1, I2, I3, I4, Q1, Q2, Q3, Q4.
    repeat split.
Qed.

Lemma loop_run_requests_bound total idx items tr new :
  loop_run total idx items tr new ->
  (List.length new <= List.length (llm_requests tr) <= List.length (fetched_ids tr))%nat.
Proof.
  induction 1 as [ idx | idx d rest tr new Hid Hloop IH
                 | idx d rest tr1 new1 tr new Hid Hitem Hloop IH ].
  - simpl. lia.
  - exact IH.
  - change (processing idx total (entry_id (VDict d)) :: tr1 ++ tr)
      with ([processing idx total (entry_id (VDict d))] ++ tr1 ++ tr).
    rewrite !llm_requests_app, !fetched_ids_app, !length_app.
    rewrite (item_run_fetched Hitem).
    pose proof (item_run_requests_bound Hitem) as Hb.
    assert (Hn : List.length new1 = List.length (answered_requests tr1)).
    { destruct (item_run_requests Hitem) as [_ Ha]. now rewrite Ha, length_map. }
    assert (Ha : (List.length (answered_requests tr1) <= List.length (llm_requests tr1))%nat).
    { clear - Hitem. destruct Hitem; simpl; lia. }
    simpl. lia.
Qed.

(** *** The report *)

Lemma email_block_info (email : EmailInfo) :
  forallb is_info_log (email_block email) = true.
Proof. unfold email_block. destruct (flagged email); reflexivity. Qed.

Lemma summary_logs_info (new : list EmailInfo) :
  forallb is_info_log (summary_logs new) = true.
Proof.
  unfold summary_logs. rewrite forallb_app. cbn [forallb banner is_info_log andb].
  induction new as [| e new IH]; [ reflexivity | ].
  cbn [flat_map]. rewrite forallb_app, email_block_info. exact IH.
Qed.

Lemma projection_subject (email : EmailInfo) :
  entry_subject (email_projection email) = VStr (subject email).
Proof. reflexivity. Qed.

Lemma projection_spam_type (email : EmailInfo) :
  entry_spam_type (email_projection email)
  = logged_spam_types (email_block email).
Proof.
  unfold entry_spam_type, email_block, flagged, email_projection. simpl.
  destruct (classification email) as [c |]; [ | reflexivity ].
  destruct (is_spam c); reflexivity.
Qed.

Lemma summary_logs_subjects (new : list EmailInfo) :
  logged_subjects (summary_logs new)
  = map entry_subject (map email_projection new).
Proof.
  unfold summary_logs, logged_subjects. rewrite flat_map_app.
  change (flat_map logged_subject _ ++ ?l) with l.
  induction new as [| e new IH]; [ reflexivity | ].
  cbn [flat_map map]. rewrite flat_map_app, IH.
  unfold email_block. destruct (flagged e); reflexivity.
Qed.

Lemma summary_logs_spam_types (new : list EmailInfo) :
  logged_spam_types (summary_logs new)
  = flat_map entry_spam_type (map email_projection new).
Proof.
  unfold summary_logs, logged_spam_types at 1. rewrite flat_map_app.
  change (flat_map logged_spam_type _ ++ ?l) with l.
  induction new as [| e new IH]; [ reflexivity | ].
  cbn [flat_map map]. rewrite flat_map_app, IH, projection_spam_type. reflexivity.
Qed.

Lemma spam_types_count (new : list EmailInfo) :
  Z.of_nat (List.length (flat_map entry_spam_type (map email_projection new)))
  = count flagged new.
Proof.
  unfold count. induction new as [| e new IH]; [ reflexivity | ].
  cbn [flat_map map filter]. rewrite length_app.
  assert (He : List.length (entry_spam_type (email_projection e))
               = if flagged e then 1%nat else 0%nat).
  { unfold entry_spam_type, flagged, email_projection. simpl.
    destruct (classification e) as [c |]; [ | reflexivity ].
    destruct (is_spam c); reflexivity. }
  rewrite He. destruct (flagged e); cbn [List.length]; lia.
Qed.

Lemma summary_logs_no_processing (new : list EmailInfo) :
  processing_records (summary_logs new) = [].
Proof.
  unfold summary_logs, processing_records. rewrite flat_map_app.
  change (flat_map processing_record _ ++ ?l) with l.
  induction new as [| e new IH]; [ reflexivity | ].
  cbn [flat_map]. rewrite flat_map_app, IH.
  unfold email_block. destruct (flagged e); reflexivity.
Qed.

(** ** Further properties of the workflow *)

Section ReturnedRuns.

Variable World : Type.
Variable app : MCPApp World.

(** A run that returns a value took one of the two [return] statements:
    that of line 78, or that of line 231 after the loop and the report. *)
Lemma returned_run_exact (w : World) (max_emails : Z) (label : string)
      (summary : value) (st' : St World) :
  classify_spam_workflow app max_emails label (initial w) = (inr summary, st') ->
  (exists gmail list_result messages w1,
     servers_get (mcp_servers app) "gmail" = Some gmail
     /\ call_tool gmail "gmail_list_messages"
                  (VDict [("max_results", VInt max_emails);
                          ("label_ids", VList [VStr label])]) w
        = (inr list_result, w1)
     /\ Py.get list_result "messages" (VList []) = inr messages
     /\ Py.truthy messages = false
     /\ summary = empty_summary
     /\ st' = mkSt w1 [start_log max_emails label; fetching_log label;
                       listing_call max_emails label (inr list_result);
                       no_emails_log] [] 0 0)
  \/ (exists gmail list_result messages total items w1 w2 tr new,
        servers_get (mcp_servers app) "gmail" = Some gmail
        /\ call_tool gmail "gmail_list_messages"
                     (VDict [("max_results", VInt max_emails);
                             ("label_ids", VList [VStr label])]) w
           = (inr list_result, w1)
        /\ Py.get list_result "messages" (VList []) = inr messages
        /\ Py.truthy messages = true
        /\ Py.len messages = inr total
        /\ Py.iter messages = inr items
        /\ summary = summary_of new
        /\ st' = mkSt w2 ([start_log max_emails label; fetching_log label;
                           listing_call max_emails label (inr list_result);
                           found_log total] ++ tr ++ summary_logs new)
                      new (count flagged new) (count cleared new)
        /\ loop_run total 1 items tr new).
Proof.
  intros Hrun. pose proof (workflow_returns _ _ _ _ Hrun) as R.
  inversion R; subst.
  - left. do 4 eexists. repeat split; eassumption.
  - right.
    match goal with
    | Hg : servers_get _ _ = Some _, Hcall : call_tool _ _ _ _ = _,
      Hget : Py.get _ _ _ = _, Ht : Py.truthy _ = true, Hlen : Py.len _ = _,
      Hiter : Py.iter _ = _, Hd : forallb is_dict _ = true |- _ =>
        destruct (workflow_past_listing app w max_emails label Hg Hcall Hget Ht Hlen Hiter Hd)
          as (w2' & tr' & new' & Heq & Hloop');
        rewrite Hrun in Heq;
        pose proof (f_equal fst Heq) as Hsum;
        pose proof (f_equal snd Heq) as Hst;
        cbn [fst snd] in Hsum, Hst;
        assert (Hs : summary_of new = summary_of new') by congruence;
        do 6 eexists; exists w2', tr', new';
        repeat split; eassumption
    end.
Qed.

End ReturnedRuns.


(** X2.  In a run that returns a summary, every listed entry with a usable
    id is accounted for exactly once, whatever the collaborators answered: its
    id is in [emails] or in an "Error processing email" record, and
    [total_processed] is the number of usable ids minus the number of those
    records. *)
Theorem every_usable_id_is_accounted_for
        (World : Type) (app : MCPApp World) (w w1 : World)
        (max_emails : Z) (label : string)
        (gmail : McpServer World) (list_result : value) (entries : list value)
        (summary : value) (st' : St World) :
  servers_get (mcp_servers app) "gmail" = Some gmail ->
  call_tool gmail "gmail_list_messages"
            (VDict [("max_results", VInt max_emails);
                    ("label_ids", VList [VStr label])]) w = (inr list_result, w1) ->
  Py.get list_result "messages" (VList []) = inr (VList entries) ->
  classify_spam_workflow app max_emails label (initial w) = (inr summary, st') ->
  exists es,
    field summary "emails" = Some (VList es)
    /\ Permutation (map projected_id es ++ error_ids (trace st'))
                   (usable_ids entries)
    /\ field summary "total_processed"
       = Some (VInt (Z.of_nat (List.length (usable_ids entries))
                     - Z.of_nat (List.length (error_ids (trace st'))))).
Proof.
  intros Hg Hcall Hget Hrun.
  destruct (returned_run_exact _ _ _ _ Hrun)
    as [(gmail0 & lr0 & messages0 & w0 & Hg0 & Hcall0 & Hget0 & Ht0 & -> & ->)
       | (gmail0 & lr0 & messages0 & total & items & w0 & w2 & tr & new
          & Hg0 & Hcall0 & Hget0 & Ht0 & Hlen0 & Hiter0 & -> & -> & Hloop)].
  - assert (gmail0 = gmail) by congruence. subst gmail0.
    assert (lr0 = list_result) by congruence. subst lr0.
    assert (messages0 = VList entries) by congruence. subst messages0.
    destruct entries; [ | discriminate ].
    exists []. repeat split. constructor.
  - assert (gmail0 = gmail) by congruence. subst gmail0.
    assert (lr0 = list_result) by congruence. subst lr0.
    assert (messages0 = VList entries) by congruence. subst messages0.
    simpl in Hiter0. inversion Hiter0; subst items.
    pose proof (loop_run_accounted Hloop) as Hp.
    destruct (info_logs_silent _ (summary_logs_info new))
      as (_ & _ & _ & Hle & _).
    exists (map email_projection new).
    rewrite map_projected_id. cbn [trace].
    rewrite !error_ids_app, Hle, app_nil_r.
    change (error_ids [start_log max_emails label; fetching_log label;
                       listing_call max_emails label (inr list_result);
                       found_log total]) with (@nil value).
    cbn [List.app].
    repeat split; [ exact Hp | ].
    apply Permutation_length in Hp. rewrite length_app, length_map in Hp.
    simpl. do 2 f_equal. lia.
Qed.

Lemma every_usable_id_is_accounted_for_witness :
  exists es,
    field (Script.returned Script.bare_message) "emails" = Some (VList es)
    /\ Permutation
         (map projected_id es ++ error_ids (trace (Script.final Script.bare_message)))
         (usable_ids [VDict []; Script.entry "m1"; Script.entry ""])
    /\ field (Script.returned Script.bare_message) "total_processed"
       = Some (VInt (Z.of_nat (List.length
                                 (usable_ids [VDict []; Script.entry "m1";
                                              Script.entry ""]))
                     - Z.of_nat (List.length
                                   (error_ids (trace (Script.final
                                                        Script.bare_message)))))).
Proof.
  apply (@every_usable_id_is_accounted_for
           Script.world Script.app Script.bare_message Script.bare_message
           20 "INBOX" Script.gmail
           (VDict [("messages", VList [VDict []; Script.entry "m1"; Script.entry ""])])
           [VDict []; Script.entry "m1"; Script.entry ""]);
    vm_compute; reflexivity.
Defined.

(** X3.  In every summary returned the counts are bounded: neither count is
    negative or above [total_processed], and there are never more records
    than requests made to the model, nor more requests than fetches. *)
Theorem counts_are_bounded
        (World : Type) (app : MCPApp World) (w : World)
        (max_emails : Z) (label : string) (summary : value) (st' : St World) :
  classify_spam_workflow app max_emails label (initial w) = (inr summary, st') ->
  exists total spam ham,
    field summary "total_processed" = Some (VInt total)
    /\ field summary "spam_count" = Some (VInt spam)
    /\ field summary "not_spam_count" = Some (VInt ham)
    /\ 0 <= spam <= total
    /\ 0 <= ham <= total
    /\ total <= Z.of_nat (List.length (llm_requests (trace st')))
    /\ (List.length (llm_requests (trace st'))
        <= List.length (fetched_ids (trace st')))%nat.
Proof.
  intros Hrun.
  destruct (returned_run_exact _ _ _ _ Hrun)
    as [(gmail0 & lr0 & messages0 & w0 & Hg0 & Hcall0 & Hget0 & Ht0 & -> & ->)
       | (gmail0 & lr0 & messages0 & total & items & w0 & w2 & tr & new
          & Hg0 & Hcall0 & Hget0 & Ht0 & Hlen0 & Hiter0 & -> & -> & Hloop)].
  - exists 0, 0, 0. simpl. repeat split; lia.
  - exists (Z.of_nat (List.length new)), (count flagged new), (count cleared new).
    pose proof (count_bounds flagged new).
    pose proof (count_bounds cleared new).
    pose proof (loop_run_requests_bound Hloop) as Hb.
    destruct (info_logs_silent _ (summary_logs_info new))
      as (_ & _ & _ & _ & Hlf & Hlr & _).
    cbn [trace].
    rewrite !llm_requests_app, !fetched_ids_app, Hlf, Hlr, !app_nil_r.
    change (llm_requests [start_log max_emails label; fetching_log label;
                          listing_call max_emails label (inr lr0);
                          found_log total]) with (@nil LlmRequest).
    change (fetched_ids [start_log max_emails label; fetching_log label;
                         listing_call max_emails label (inr lr0);
                         found_log total]) with (@nil value).
    cbn [List.app].
    repeat split; try reflexivity; lia.
Qed.

Lemma counts_are_bounded_witness :
  exists total spam ham,
    field (Script.returned Script.mixed_failures) "total_processed" = Some (VInt total)
    /\ field (Script.returned Script.mixed_failures) "spam_count" = Some (VInt spam)
    /\ field (Script.returned Script.mixed_failures) "not_spam_count" = Some (VInt ham)
    /\ 0 <= spam <= total
    /\ 0 <= ham <= total
    /\ total <= Z.of_nat (List.length
                            (llm_requests (trace (Script.final Script.mixed_failures))))
    /\ (List.length (llm_requests (trace (Script.final Script.mixed_failures)))
        <= List.length (fetched_ids (trace (Script.final Script.mixed_failures))))%nat.
Proof.
  apply (@counts_are_bounded Script.world Script.app Script.mixed_failures 20 "INBOX").
  vm_compute. reflexivity.
Defined.

Lemma first_non_dict_unique (good good' : list value) bad bad' rest rest' :
  good ++ bad :: rest = good' ++ bad' :: rest' ->
  forallb is_dict good = true -> is_dict bad = false ->
  forallb is_dict good' = true -> is_dict bad' = false ->
  good = good'.
Proof.
  revert good'. induction good as [| x good IH]; intros [| y good'] Heq Hg Hb Hg' Hb';
    simpl in *.
  - reflexivity.
  - inversion Heq; subst. apply andb_prop in Hg'. destruct Hg' as [Hy _]. congruence.
  - inversion Heq; subst. apply andb_prop in Hg. destruct Hg as [Hx _]. congruence.
  - inversion Heq; subst.
    apply andb_prop in Hg. destruct Hg as [_ Hg].
    apply andb_prop in Hg'. destruct Hg' as [_ Hg'].
    f_equal. eapply IH; eassumption.
Qed.

(** X4.  A listed entry that is not a dict (a bare id, a null) is not
    skipped: the run stops there with [AttributeError] and returns no summary,
    after the entries before it were fetched and classified; the entries after
    it are never fetched. *)
Theorem non_dict_entry_aborts_the_run
        (World : Type) (app : MCPApp World) (w w1 : World)
        (max_emails : Z) (label : string)
        (gmail : McpServer World) (list_result : value)
        (good : list value) (bad : value) (rest : list value) :
  servers_get (mcp_servers app) "gmail" = Some gmail ->
  call_tool gmail "gmail_list_messages"
            (VDict [("max_results", VInt max_emails);
                    ("label_ids", VList [VStr label])]) w = (inr list_result, w1) ->
  Py.get list_result "messages" (VList []) = inr (VList (good ++ bad :: rest)) ->
  forallb is_dict good = true ->
  is_dict bad = false ->
  exists st',
    classify_spam_workflow app max_emails label (initial w)
    = (inl AttributeError, st')
    /\ fetched_ids (trace st') = usable_ids good
    /\ (List.length (emails st') + List.length (error_ids (trace st'))
        = List.length (usable_ids good))%nat.
Proof.
  intros Hg Hcall Hget Hgood Hbad.
  destruct (classify_spam_workflow app max_emails label (initial w)) as [r st'] eqn:Hrun.
  pose proof (workflow_returns _ _ _ _ Hrun) as R.
  assert (Hall : forallb is_dict (good ++ bad :: rest) = false).
  { rewrite forallb_app. simpl. rewrite Hbad, andb_false_r. reflexivity. }
  inversion R; subst; try congruence.
  - assert (messages0 = VList (good ++ bad :: rest)) by congruence. subst messages0.
    destruct good; discriminate.
  - assert (messages0 = VList (good ++ bad :: rest)) by congruence. subst messages0.
    discriminate.
  - assert (messages0 = VList (good ++ bad :: rest)) by congruence. subst messages0.
    match goal with
    | Hit : Py.iter _ = inr _ |- _ => simpl in Hit; inversion Hit as [Hitems]
    end.
    match goal with
    | Hloop : loop_run _ _ ?g _ _, Hb0 : is_dict ?b = false |- _ =>
        pose proof (loop_run_dicts Hloop) as Hd0;
        assert (g = good)
          by (symmetry; eapply first_non_dict_unique; eassumption);
        subst g;
        pose proof (loop_run_fetched Hloop) as Hf;
        pose proof (loop_run_accounted Hloop) as Hp
    end.
    eexists. split; [ reflexivity | ].
    cbn [trace emails]. rewrite fetched_ids_app, error_ids_app.
    split; [ exact Hf | ].
    apply Permutation_length in Hp. rewrite length_app, length_map in Hp.
    exact Hp.
  - assert (messages0 = VList (good ++ bad :: rest)) by congruence. subst messages0.
    match goal with
    | Hit : Py.iter _ = inr _ |- _ => simpl in Hit; inversion Hit; subst
    end.
    congruence.
Qed.

Lemma non_dict_entry_aborts_the_run_witness :
  exists st',
    Script.run Script.app bare_id_listing = (inl AttributeError, st')
    /\ fetched_ids (trace st') = usable_ids [Script.entry "m1"]
    /\ (List.length (emails st') + List.length (error_ids (trace st'))
        = List.length (usable_ids [Script.entry "m1"]))%nat.
Proof.
  apply (@non_dict_entry_aborts_the_run
           Script.world Script.app bare_id_listing bare_id_listing
           20 "INBOX" Script.gmail
           (VDict [("messages",
                    VList [Script.entry "m1"; VStr "m2"; Script.entry "m3"])])
           [Script.entry "m1"] (VStr "m2") [Script.entry "m3"]);
    reflexivity.
Defined.

(** X5.  When the listing call returns something that is not a dict, the
    [get] of line 75 raises inside the [try]: the error is logged as a
    listing error and [AttributeError] leaves the workflow, the listing being
    the only call made. *)
Theorem listing_answer_without_get_is_fatal
        (World : Type) (app : MCPApp World) (w w1 : World)
        (max_emails : Z) (label : string)
        (gmail : McpServer World) (list_result : value) :
  servers_get (mcp_servers app) "gmail" = Some gmail ->
  call_tool gmail "gmail_list_messages"
            (VDict [("max_results", VInt max_emails);
                    ("label_ids", VList [VStr label])]) w = (inr list_result, w1) ->
  is_dict list_result = false ->
  exists st',
    classify_spam_workflow app max_emails label (initial w)
    = (inl AttributeError, st')
    /\ calls (trace st')
       = [ToolCall "gmail_list_messages"
                   (VDict [("max_results", VInt max_emails);
                           ("label_ids", VList [VStr label])]) (inr list_result)]
    /\ In (Log ERROR [Lit "Error listing emails: "; InterpExn AttributeError])
          (trace st').
Proof.
  intros Hg Hcall Hnd.
  assert (Hget : Py.get list_result "messages" (VList []) = inl AttributeError).
  { destruct list_result; try reflexivity. discriminate. }
  destruct (classify_spam_workflow app max_emails label (initial w)) as [r st'] eqn:Hrun.
  pose proof (workflow_returns _ _ _ _ Hrun) as R.
  inversion R; subst; try congruence.
  assert (gmail0 = gmail) by congruence. subst gmail0.
  assert (list_result0 = list_result) by congruence. subst list_result0.
  assert (e = AttributeError) by congruence. subst e.
  eexists. split; [ reflexivity | ]. split; [ reflexivity | ].
  simpl. auto.
Qed.

Lemma listing_answer_without_get_is_fatal_witness :
  exists st',
    Script.run Script.app list_for_listing = (inl AttributeError, st')
    /\ calls (trace st')
       = [ToolCall "gmail_list_messages"
                   (VDict [("max_results", VInt 20);
                           ("label_ids", VList [VStr "INBOX"])])
                   (inr (VList [Script.entry "m1"]))]
    /\ In (Log ERROR [Lit "Error listing emails: "; InterpExn AttributeError])
          (trace st').
Proof.
  apply (@listing_answer_without_get_is_fatal
           Script.world Script.app list_for_listing list_for_listing
           20 "INBOX" Script.gmail (VList [Script.entry "m1"]));
    reflexivity.
Defined.

(** X6.  When [messages] is true but has no length (a number, [True]), the
    [len] of line 85 raises inside the [try]: [TypeError] is logged as a
    listing error and leaves the workflow, the listing being the only call
    made. *)
Theorem messages_without_length_are_fatal
        (World : Type) (app : MCPApp World) (w w1 : World)
        (max_emails : Z) (label : string)
        (gmail : McpServer World) (list_result found : value) (e : exn) :
  servers_get (mcp_servers app) "gmail" = Some gmail ->
  call_tool gmail "gmail_list_messages"
            (VDict [("max_results", VInt max_emails);
                    ("label_ids", VList [VStr label])]) w = (inr list_result, w1) ->
  Py.get list_result "messages" (VList []) = inr found ->
  Py.truthy found = true ->
  Py.len found = inl e ->
  exists st',
    classify_spam_workflow app max_emails label (initial w) = (inl TypeError, st')
    /\ calls (trace st')
       = [ToolCall "gmail_list_messages"
                   (VDict [("max_results", VInt max_emails);
                           ("label_ids", VList [VStr label])]) (inr list_result)]
    /\ In (Log ERROR [Lit "Error listing emails: "; InterpExn TypeError])
          (trace st').
Proof.
  intros Hg Hcall Hget Ht Hlen.
  assert (He : e = TypeError).
  { destruct found; simpl in Hlen; congruence. }
  subst e.
  destruct (classify_spam_workflow app max_emails label (initial w)) as [r st'] eqn:Hrun.
  pose proof (workflow_returns _ _ _ _ Hrun) as R.
  inversion R; subst; try congruence.
  assert (gmail0 = gmail) by congruence. subst gmail0.
  assert (list_result0 = list_result) by congruence. subst list_result0.
  assert (messages0 = found) by congruence. subst messages0.
  assert (e = TypeError) by congruence. subst e.
  eexists. split; [ reflexivity | ]. split; [ reflexivity | ].
  simpl. auto.
Qed.

Lemma messages_without_length_are_fatal_witness :
  exists st',
    Script.run Script.app count_for_messages = (inl TypeError, st')
    /\ calls (trace st')
       = [ToolCall "gmail_list_messages"
                   (VDict [("max_results", VInt 20);
                           ("label_ids", VList [VStr "INBOX"])])
                   (inr (VDict [("messages", VInt 3)]))]
    /\ In (Log ERROR [Lit "Error listing emails: "; InterpExn TypeError])
          (trace st').
Proof.
  apply (@messages_without_length_are_fatal
           Script.world Script.app count_for_messages count_for_messages
           20 "INBOX" Script.gmail (VDict [("messages", VInt 3)]) (VInt 3) TypeError);
    reflexivity.
Defined.

(** *** One iteration, whatever the collaborators answer *)

(** X7.  Nothing raised inside the [try] of an iteration leaves it: the
    iteration always ends normally, appends at most one record, which carries
    a classification, leaves the earlier records and events in place, and
    raises the two counts together by exactly the number of records
    appended. *)
Theorem iteration_never_raises
        (World : Type) (app : MCPApp World) (gmail : McpServer World)
        (id : value) (st : St World) :
  exists st' new tr,
    classify_email app gmail id st = (inr tt, st')
    /\ emails st' = emails st ++ new
    /\ (List.length new <= 1)%nat
    /\ Forall classified new
    /\ trace st' = trace st ++ tr
    /\ spam_count st <= spam_count st'
    /\ not_spam_count st <= not_spam_count st'
    /\ spam_count st' + not_spam_count st'
       = spam_count st + not_spam_count st + Z.of_nat (List.length new).
Proof.
  destruct (classify_email_run app gmail id st) as (w & tr & new & Heq & Hrun).
  exists (extend st w tr new), new, tr.
  pose proof (item_run_classified Hrun) as Hc.
  pose proof (count_partition Hc) as Hp.
  pose proof (count_bounds flagged new).
  pose proof (count_bounds cleared new).
  unfold extend. cbn [emails trace spam_count not_spam_count].
  repeat split; try assumption; try reflexivity; try lia.
  eapply item_run_at_most_one; eassumption.
Qed.

Lemma get_fetched_field d key default :
  Py.get (VDict d) key (VStr default) = inr (fetched_field d key default).
Proof. unfold Py.get, fetched_field. destruct (Py.lookup d key); reflexivity. Qed.

Lemma EmailInfo_init_invalid i s f p :
  is_str i && is_str s && is_str f && is_str p = false ->
  EmailInfo_init i s f p = inl ValidationError.
Proof.
  destruct i; try reflexivity; destruct s; try reflexivity;
    destruct f; try reflexivity; destruct p; try reflexivity.
  discriminate.
Qed.

(** X8.  A fetched message in which [subject], [from] or [snippet] is
    present but not a string (a null, a number), or whose id is not a string,
    is rejected by the validation of [EmailInfo]: the id is logged with
    [ValidationError], no request goes to the model and nothing is recorded or
    counted. *)
Theorem non_string_field_is_skipped
        (World : Type) (app : MCPApp World) (gmail : McpServer World)
        (id : value) (st : St World) (d : list (string * value)) (w1 : World) :
  call_tool gmail "gmail_get_message" (VDict [("message_id", id)]) (world st)
  = (inr (VDict d), w1) ->
  is_str id && is_str (fetched_field d "subject" "(no subject)")
  && is_str (fetched_field d "from" "unknown")
  && is_str (fetched_field d "snippet" "") = false ->
  classify_email app gmail id st
  = (inr tt,
     mkSt w1
          (trace st
           ++ [ToolCall "gmail_get_message" (VDict [("message_id", id)])
                        (inr (VDict d));
               Log ERROR [Lit "Error processing email "; Interp id "";
                          Lit ": "; InterpExn ValidationError]])
          (emails st) (spam_count st) (not_spam_count st)).
Proof.
  intros Hcall Hbad.
  unfold classify_email, try_except, bind, gmail_call_tool, lift.
  rewrite Hcall. cbv beta iota.
  rewrite !get_fetched_field. cbv beta iota.
  rewrite (EmailInfo_init_invalid _ _ _ _ Hbad).
  unfold logger_error, emit. simpl. rewrite <- app_assoc. reflexivity.
Qed.

Lemma non_string_field_is_skipped_witness :
  classify_email Script.app Script.gmail (VStr "m1") (initial odd_answers)
  = (inr tt,
     mkSt odd_answers
          (trace (initial odd_answers)
           ++ [ToolCall "gmail_get_message" (VDict [("message_id", VStr "m1")])
                        (inr (VDict [("subject", VNone);
                                     ("from", VStr "a@example.com")]));
               Log ERROR [Lit "Error processing email "; Interp (VStr "m1") "";
                          Lit ": "; InterpExn ValidationError]])
          (emails (initial odd_answers)) (spam_count (initial odd_answers))
          (not_spam_count (initial odd_answers))).
Proof.
  apply (@non_string_field_is_skipped
           Script.world Script.app Script.gmail (VStr "m1") (initial odd_answers)
           [("subject", VNone); ("from", VStr "a@example.com")] odd_answers);
    reflexivity.
Defined.

(** X9.  When the fetch returns something that is not a dict, the first
    [get] raises: the id is logged with [AttributeError], no request goes to
    the model and nothing is recorded or counted. *)
Theorem non_dict_message_is_skipped
        (World : Type) (app : MCPApp World) (gmail : McpServer World)
        (id : value) (st : St World) (v : value) (w1 : World) :
  call_tool gmail "gmail_get_message" (VDict [("message_id", id)]) (world st)
  = (inr v, w1) ->
  is_dict v = false ->
  classify_email app gmail id st
  = (inr tt,
     mkSt w1
          (trace st
           ++ [ToolCall "gmail_get_message" (VDict [("message_id", id)]) (inr v);
               Log ERROR [Lit "Error processing email "; Interp id "";
                          Lit ": "; InterpExn AttributeError]])
          (emails st) (spam_count st) (not_spam_count st)).
Proof.
  intros Hcall Hnd.
  unfold classify_email, try_except, bind, gmail_call_tool, lift.
  rewrite Hcall. cbv beta iota.
  assert (Hget : Py.get v "subject" (VStr "(no subject)") = inl AttributeError).
  { destruct v; try reflexivity. discriminate. }
  rewrite Hget.
  unfold logger_error, emit. simpl. rewrite <- app_assoc. reflexivity.
Qed.

Lemma non_dict_message_is_skipped_witness :
  classify_email Script.app Script.gmail (VStr "m2") (initial odd_answers)
  = (inr tt,
     mkSt odd_answers
          (trace (initial odd_answers)
           ++ [ToolCall "gmail_get_message" (VDict [("message_id", VStr "m2")])
                        (inr (VStr "not found"));
               Log ERROR [Lit "Error processing email "; Interp (VStr "m2") "";
                          Lit ": "; InterpExn AttributeError]])
          (emails (initial odd_answers)) (spam_count (initial odd_answers))
          (not_spam_count (initial odd_answers))).
Proof.
  apply (@non_dict_message_is_skipped
           Script.world Script.app Script.gmail (VStr "m2") (initial odd_answers)
           (VStr "not found") odd_answers);
    reflexivity.
Defined.

(** X10.  When the model returns without raising but the object returned
    has no classification attributes, the request was made, the read of
    [is_spam] raises, the id is logged with [AttributeError], and the record,
    although built, is neither appended nor counted. *)
Theorem answer_without_attributes_is_skipped
        (World : Type) (app : MCPApp World) (gmail : McpServer World)
        (s : string) (st : St World) (d : list (string * value)) (w1 w2 : World)
        (osubject ofrom osnippet : option string) :
  call_tool gmail "gmail_get_message" (VDict [("message_id", VStr s)]) (world st)
  = (inr (VDict d), w1) ->
  Py.lookup d "subject" = option_map VStr osubject ->
  Py.lookup d "from" = option_map VStr ofrom ->
  Py.lookup d "snippet" = option_map VStr osnippet ->
  run (llm app)
      (request_for (mkEmailInfo s (or_default "(no subject)" osubject)
                                (or_default "unknown" ofrom)
                                (or_default "" osnippet) None)) w1
  = (inr None, w2) ->
  exists st',
    classify_email app gmail (VStr s) st = (inr tt, st')
    /\ world st' = w2
    /\ emails st' = emails st
    /\ spam_count st' = spam_count st
    /\ not_spam_count st' = not_spam_count st
    /\ llm_requests (trace st')
       = llm_requests (trace st)
         ++ [request_for (mkEmailInfo s (or_default "(no subject)" osubject)
                                      (or_default "unknown" ofrom)
                                      (or_default "" osnippet) None)]
    /\ error_ids (trace st') = error_ids (trace st) ++ [VStr s].
Proof.
  intros Hcall Hs Hf Hp Hrun.
  unfold classify_email, try_except, bind, gmail_call_tool, lift.
  rewrite Hcall. simpl. rewrite Hs, Hf, Hp.
  unfold request_for in Hrun. simpl in Hrun.
  destruct osubject, ofrom, osnippet; simpl in *;
    unfold llm_run; simpl; rewrite Hrun; simpl;
    eexists; (split; [ reflexivity | ]); simpl;
    repeat (split; [ reflexivity | ]);
    rewrite <- !app_assoc; rewrite ?llm_requests_app, ?error_ids_app; simpl;
    rewrite ?app_nil_r; split; reflexivity.
Qed.

Lemma answer_without_attributes_is_skipped_witness :
  exists st',
    classify_email Script.app Script.gmail (VStr "m3") (initial odd_answers)
    = (inr tt, st')
    /\ world st'
       = Script.mkWorld (Script.listing odd_answers) (Script.mailbox odd_answers) []
    /\ emails st' = emails (initial odd_answers)
    /\ spam_count st' = spam_count (initial odd_answers)
    /\ not_spam_count st' = not_spam_count (initial odd_answers)
    /\ llm_requests (trace st')
       = llm_requests (trace (initial odd_answers))
         ++ [request_for (mkEmailInfo "m3" "Hi" "b@example.com" "" None)]
    /\ error_ids (trace st') = error_ids (trace (initial odd_answers)) ++ [VStr "m3"].
Proof.
  apply (@answer_without_attributes_is_skipped
           Script.world Script.app Script.gmail "m3" (initial odd_answers)
           [("subject", VStr "Hi"); ("from", VStr "b@example.com");
            ("snippet", VStr "")]
           odd_answers
           (Script.mkWorld (Script.listing odd_answers) (Script.mailbox odd_answers) [])
           (Some "Hi") (Some "b@example.com") (Some ""));
    reflexivity.
Defined.

(** X11.  An id that is true but not a string (a number, say) is still
    handed to the fetch, but whatever the collaborators answer it is never
    classified nor recorded: no request goes to the model and the id ends in
    an error record. *)
Theorem non_string_id_is_never_recorded
        (World : Type) (app : MCPApp World) (gmail : McpServer World)
        (id : value) (st : St World) :
  is_str id = false ->
  exists st',
    classify_email app gmail id st = (inr tt, st')
    /\ emails st' = emails st
    /\ fetched_ids (trace st') = fetched_ids (trace st) ++ [id]
    /\ llm_requests (trace st') = llm_requests (trace st)
    /\ error_ids (trace st') = error_ids (trace st) ++ [id].
Proof.
  intros Hid.
  destruct (classify_email_run app gmail id st) as (w & tr & new & Heq & Hrun).
  exists (extend st w tr new). split; [ exact Heq | ].
  unfold extend. cbn [emails trace].
  rewrite fetched_ids_app, llm_requests_app, error_ids_app.
  rewrite (item_run_fetched Hrun).
  assert (Hno : forall v info, extract id v = inr info -> False).
  { intros v info Hx. apply extract_id in Hx. subst id. discriminate. }
  inversion Hrun; subst;
    try (exfalso; eapply Hno; eassumption);
    simpl; rewrite ?app_nil_r; repeat split.
Qed.

Lemma non_string_id_is_never_recorded_witness :
  exists st',
    classify_email Script.app Script.gmail (VInt 7) (initial odd_answers) = (inr tt, st')
    /\ emails st' = emails (initial odd_answers)
    /\ fetched_ids (trace st') = fetched_ids (trace (initial odd_answers)) ++ [VInt 7]
    /\ llm_requests (trace st') = llm_requests (trace (initial odd_answers))
    /\ error_ids (trace st') = error_ids (trace (initial odd_answers)) ++ [VInt 7].
Proof.
  apply (@non_string_id_is_never_recorded
           Script.world Script.app Script.gmail (VInt 7) (initial odd_answers)).
  reflexivity.
Defined.

(** *** What is logged *)

(** X12.  The "Processing email i/n" records of a run that returns a
    summary are those of the listed entries with a usable id, in order; [i] is
    the position of the entry in the listing counted from 1 and [n] the length
    of the listing, both counting the entries that were skipped for want of an
    id. *)
Theorem processing_records_number_the_listing
        (World : Type) (app : MCPApp World) (w w1 : World)
        (max_emails : Z) (label : string)
        (gmail : McpServer World) (list_result : value) (entries : list value)
        (summary : value) (st' : St World) :
  servers_get (mcp_servers app) "gmail" = Some gmail ->
  call_tool gmail "gmail_list_messages"
            (VDict [("max_results", VInt max_emails);
                    ("label_ids", VList [VStr label])]) w = (inr list_result, w1) ->
  Py.get list_result "messages" (VList []) = inr (VList entries) ->
  classify_spam_workflow app max_emails label (initial w) = (inr summary, st') ->
  processing_records (trace st') = numbered 1 (List.length entries) entries.
Proof.
  intros Hg Hcall Hget Hrun.
  destruct (returned_run_exact _ _ _ _ Hrun)
    as [(gmail0 & lr0 & messages0 & w0 & Hg0 & Hcall0 & Hget0 & Ht0 & -> & ->)
       | (gmail0 & lr0 & messages0 & total & items & w0 & w2 & tr & new
          & Hg0 & Hcall0 & Hget0 & Ht0 & Hlen0 & Hiter0 & -> & -> & Hloop)].
  - assert (messages0 = VList entries) by congruence. subst messages0.
    destruct entries; [ reflexivity | discriminate ].
  - assert (messages0 = VList entries) by congruence. subst messages0.
    simpl in Hiter0, Hlen0. inversion Hiter0; subst items.
    inversion Hlen0; subst total.
    cbn [trace]. unfold processing_records.
    rewrite !flat_map_app.
    fold (processing_records tr). fold (processing_records (summary_logs new)).
    rewrite summary_logs_no_processing, app_nil_r, (loop_run_numbered Hloop).
    reflexivity.
Qed.

Lemma processing_records_number_the_listing_witness :
  processing_records (trace (Script.final Script.bare_message))
  = numbered 1 (List.length [VDict []; Script.entry "m1"; Script.entry ""])
             [VDict []; Script.entry "m1"; Script.entry ""].
Proof.
  apply (@processing_records_number_the_listing
           Script.world Script.app Script.bare_message Script.bare_message
           20 "INBOX" Script.gmail
           (VDict [("messages", VList [VDict []; Script.entry "m1"; Script.entry ""])])
           [VDict []; Script.entry "m1"; Script.entry ""]
           (Script.returned Script.bare_message));
    vm_compute; reflexivity.
Defined.

(** The second of three listed entries is announced as 2/3 although the
    first and the third are skipped. *)
Example bare_message_numbering :
  processing_records (trace (Script.final Script.bare_message))
  = [(VInt 2, VInt 3, VStr "m1")].
Proof. vm_compute. reflexivity. Qed.

(** X13.  The report logged before a summary is returned names every entry
    of [emails] once, in order ("Subject:" records), and has a "Spam Type:"
    record exactly for the entries flagged as spam, so as many as
    [spam_count]; the early return for an empty listing logs no report. *)
Theorem final_report_lists_every_record
        (World : Type) (app : MCPApp World) (w : World)
        (max_emails : Z) (label : string) (summary : value) (st' : St World) :
  classify_spam_workflow app max_emails label (initial w) = (inr summary, st') ->
  exists es spam,
    field summary "emails" = Some (VList es)
    /\ field summary "spam_count" = Some (VInt spam)
    /\ logged_subjects (trace st') = map entry_subject es
    /\ logged_spam_types (trace st') = flat_map entry_spam_type es
    /\ Z.of_nat (List.length (logged_spam_types (trace st'))) = spam.
Proof.
  intros Hrun.
  destruct (returned_run_exact _ _ _ _ Hrun)
    as [(gmail0 & lr0 & messages0 & w0 & Hg0 & Hcall0 & Hget0 & Ht0 & -> & ->)
       | (gmail0 & lr0 & messages0 & total & items & w0 & w2 & tr & new
          & Hg0 & Hcall0 & Hget0 & Ht0 & Hlen0 & Hiter0 & -> & -> & Hloop)].
  - exists [], 0. repeat split.
  - exists (map email_projection new), (count flagged new).
    destruct (loop_run_quiet Hloop) as (Hs & Ht & _).
    assert (Hsub : logged_subjects
                     (trace (mkSt w2
                        ([start_log max_emails label; fetching_log label;
                          listing_call max_emails label (inr lr0);
                          found_log total] ++ tr ++ summary_logs new)
                        new (count flagged new) (count cleared new)))
                   = map entry_subject (map email_projection new)).
    { cbn [trace]. unfold logged_subjects. rewrite !flat_map_app.
      fold (logged_subjects tr). fold (logged_subjects (summary_logs new)).
      rewrite Hs, summary_logs_subjects. reflexivity. }
    assert (Htyp : logged_spam_types
                     (trace (mkSt w2
                        ([start_log max_emails label; fetching_log label;
                          listing_call max_emails label (inr lr0);
                          found_log total] ++ tr ++ summary_logs new)
                        new (count flagged new) (count cleared new)))
                   = flat_map entry_spam_type (map email_projection new)).
    { cbn [trace]. unfold logged_spam_types at 1. rewrite !flat_map_app.
      fold (logged_spam_types tr). fold (logged_spam_types (summary_logs new)).
      rewrite Ht, summary_logs_spam_types. reflexivity. }
    rewrite Hsub, Htyp.
    repeat split. apply spam_types_count.
Qed.

Lemma final_report_lists_every_record_witness :
  exists es spam,
    field (Script.returned Script.three_messages) "emails" = Some (VList es)
    /\ field (Script.returned Script.three_messages) "spam_count" = Some (VInt spam)
    /\ logged_subjects (trace (Script.final Script.three_messages))
       = map entry_subject es
    /\ logged_spam_types (trace (Script.final Script.three_messages))
       = flat_map entry_spam_type es
    /\ Z.of_nat (List.length
                   (logged_spam_types (trace (Script.final Script.three_messages))))
       = spam.
Proof.
  apply (@final_report_lists_every_record
           Script.world Script.app Script.three_messages 20 "INBOX").
  vm_compute. reflexivity.
Defined.

(** X14.  When some messages were processed and none is spam, the
    percentage of the summary is the float 0.0; the integer 0 stands only for
    a run in which nothing was processed. *)
Theorem percentage_when_nothing_is_spam
        (World : Type) (app : MCPApp World) (w : World)
        (max_emails : Z) (label : string) (summary : value) (st' : St World)
        (total : Z) :
  classify_spam_workflow app max_emails label (initial w) = (inr summary, st') ->
  field summary "total_processed" = Some (VInt total) ->
  0 < total ->
  field summary "spam_count" = Some (VInt 0) ->
  field summary "spam_percentage" = Some (VFloat (S754_zero false)).
Proof.
  intros Hrun Htotal Hpos Hspam.
  destruct (returned_run_exact _ _ _ _ Hrun)
    as [(gmail0 & lr0 & messages0 & w0 & Hg0 & Hcall0 & Hget0 & Ht0 & -> & ->)
       | (gmail0 & lr0 & messages0 & n & items & w0 & w2 & tr & new
          & Hg0 & Hcall0 & Hget0 & Ht0 & Hlen0 & Hiter0 & -> & -> & Hloop)].
  - simpl in Htotal. inversion Htotal. lia.
  - simpl in Htotal, Hspam. inversion Htotal as [Hn]. inversion Hspam as [Hc].
    simpl. unfold percentage. rewrite Hc, Hn.
    destruct new as [| e new]; [ simpl in Hn; lia | ].
    destruct total as [| p | p]; try lia.
    reflexivity.
Qed.

Lemma percentage_when_nothing_is_spam_witness :
  field (Script.returned Script.bare_message) "spam_percentage"
  = Some (VFloat (S754_zero false)).
Proof.
  apply (@percentage_when_nothing_is_spam
           Script.world Script.app Script.bare_message 20 "INBOX"
           (Script.returned Script.bare_message) (Script.final Script.bare_message) 1);
    vm_compute; reflexivity.
Defined.

(** *** The prompt *)

(** X15.  The three values are pasted into the prompt as they are, with no
    escaping or delimiting: a sender that ends with a line feed and a
    "- Subject: " line gives the same prompt as that line moved into the
    subject, so the text sent to the model does not determine which field a
    line came from. *)
Theorem prompt_fields_are_not_delimited (a b c p : string) :
  classification_prompt (a ++ LF ++ "- Subject: " ++ b)%string c p
  = classification_prompt a (b ++ LF ++ "- Subject: " ++ c)%string p.
Proof.
  unfold classification_prompt.
  repeat rewrite append_assoc. reflexivity.
Qed.

(** *** The file run as a script *)

(** X16.  Run as a script on a mailbox whose listing is empty, the program
    prints the "Processed 0 emails" line and then stops with
    [KeyError('spam_percentage')]: the dictionary of the early return has no
    such key. *)
Theorem script_fails_on_an_empty_listing
        (World : Type) (app : MCPApp World) (w w1 : World)
        (gmail : McpServer World) (list_result found : value) :
  servers_get (mcp_servers app) "gmail" = Some gmail ->
  call_tool gmail "gmail_list_messages"
            (VDict [("max_results", VInt 20);
                    ("label_ids", VList [VStr "INBOX"])]) w = (inr list_result, w1) ->
  Py.get list_result "messages" (VList []) = inr found ->
  Py.truthy found = false ->
  exists st',
    main app w
    = (inl (KeyError "spam_percentage"), st',
       [[Lit (LF ++ "Processed ")%string; Interp (VInt 0) ""; Lit " emails"]]).
Proof.
  intros Hg Hcall Hget Ht.
  unfold main.
  destruct (classify_spam_workflow app 20 "INBOX" (initial w)) as [r st'] eqn:Hrun.
  pose proof (workflow_returns _ _ _ _ Hrun) as R.
  inversion R; subst; try congruence.
  eexists. reflexivity.
Qed.

Lemma script_fails_on_an_empty_listing_witness :
  exists st',
    main Script.app Script.empty_inbox
    = (inl (KeyError "spam_percentage"), st',
       [[Lit (LF ++ "Processed ")%string; Interp (VInt 0) ""; Lit " emails"]]).
Proof.
  apply (@script_fails_on_an_empty_listing
           Script.world Script.app Script.empty_inbox Script.empty_inbox
           Script.gmail (VDict [("messages", VList [])]) (VList []));
    reflexivity.
Defined.

(** X17.  Run as a script on a listing that is not empty, whenever the
    workflow returns, the program ends normally after printing two lines: the
    number of records, then the spam count with the percentage of the
    summary. *)
Theorem script_prints_the_counts
        (World : Type) (app : MCPApp World) (w w1 : World)
        (gmail : McpServer World) (list_result found : value)
        (summary : value) (st' : St World) :
  servers_get (mcp_servers app) "gmail" = Some gmail ->
  call_tool gmail "gmail_list_messages"
            (VDict [("max_results", VInt 20);
                    ("label_ids", VList [VStr "INBOX"])]) w = (inr list_result, w1) ->
  Py.get list_result "messages" (VList []) = inr found ->
  Py.truthy found = true ->
  classify_spam_workflow app 20 "INBOX" (initial w) = (inr summary, st') ->
  exists percent,
    field summary "spam_percentage" = Some percent
    /\ main app w
       = (inr tt, st',
          [[Lit (LF ++ "Processed ")%string;
            Interp (VInt (Z.of_nat (List.length (emails st')))) ""; Lit " emails"];
           [Lit "Found "; Interp (VInt (spam_count st')) ""; Lit " spam emails (";
            Interp percent ""; Lit "%)"]]).
Proof.
  intros Hg Hcall Hget Ht Hrun.
  unfold main. rewrite Hrun.
  destruct (returned_run_exact _ _ _ _ Hrun)
    as [(gmail0 & lr0 & messages0 & w0 & Hg0 & Hcall0 & Hget0 & Ht0 & -> & ->)
       | (gmail0 & lr0 & messages0 & n & items & w0 & w2 & tr & new
          & Hg0 & Hcall0 & Hget0 & Ht0 & Hlen0 & Hiter0 & -> & -> & Hloop)].
  - congruence.
  - exists (percentage new). split; reflexivity.
Qed.

Lemma script_prints_the_counts_witness :
  exists percent,
    field (Script.returned Script.three_messages) "spam_percentage" = Some percent
    /\ main Script.app Script.three_messages
       = (inr tt, Script.final Script.three_messages,
          [[Lit (LF ++ "Processed ")%string;
            Interp (VInt (Z.of_nat (List.length
                                      (emails (Script.final Script.three_messages)))))
                   "";
            Lit " emails"];
           [Lit "Found ";
            Interp (VInt (spam_count (Script.final Script.three_messages))) "";
            Lit " spam emails ("; Interp percent ""; Lit "%)"]]).
Proof.
  apply (@script_prints_the_counts
           Script.world Script.app Script.three_messages Script.three_messages
           Script.gmail
           (VDict [("messages",
                    VList [Script.entry "m1"; Script.entry "m2"; Script.entry "m3"])])
           (VList [Script.entry "m1"; Script.entry "m2"; Script.entry "m3"]));
    vm_compute; reflexivity.
Defined.
